(** * rheeder: a "read content by path" interface and its five readers

    A shallow embedding of [src/rheeder/rheeder.py].  The module defines one
    interface class, [ReaderImp], and five subclasses whose [read] method is a
    short chain of calls into a collaborator: the filesystem ([open],
    [os.path.join]), an S3 client ([get_object]), a PyGithub repository
    ([get_contents], [base64.b64decode]), a GitPython repository
    ([working_tree_dir]) or nothing at all.

    The embedding has three layers.
    - The Python library functions the readers call ([posixpath.join], the
      strict UTF-8 codec, universal-newline translation, [base64.b64decode])
      are written out as executable functions.
    - The interpreter state is a record [Machine]: the backing stores (what the
      filesystem and the remote clients would answer), the heap of reader
      instances, the set of open files and the trace of collaborator calls.
      Python code is a state-and-exception monad [M] over it.
    - Each class is a constructor (its [__init__]) and a [read] method, written
      statement by statement after the source; [read] dispatches on the class
      of the instance as Python's method resolution does.

    Paths are POSIX paths ([os.path] is [posixpath]). *)

From Stdlib Require Import NArith Strings.String Strings.Ascii Strings.Byte Lists.List Lia.
From stdpp Require Import gmap strings list pretty.

Local Open Scope N_scope.

(** ** Python values *)

(** A Python [str] is a sequence of Unicode code points, a [bytes] a sequence
    of octets. *)
Abbreviation str := (list N).
Abbreviation bytes := (list byte).

(** A literal [str] / [bytes] written with ASCII characters. *)
Definition u (s : string) : str :=
  map N_of_ascii (list_ascii_of_string s).

Definition b (s : string) : bytes :=
  list_byte_of_string s.

(** What [read] hands back: text (the file readers, the pass-through reader)
    or raw bytes (the S3 and the get-contents readers). *)
Inductive value :=
| VStr (s : str)
| VBytes (data : bytes).

(** ** Exceptions *)

(** The exceptions that occur: the built-in ones raised by the interpreter and
    the standard library, and [ClientError] for whatever class a
    caller-supplied SDK object raises (botocore's [ClientError], PyGithub's
    [UnknownObjectException], ...), kept as class name and message.
    [OSError errno filename] is the exception Python builds from an error
    number of the operating system other than those of the four subclasses
    listed before it. *)
Inductive Exn :=
| NotImplementedError
| TypeError (msg : string)
| ValueError (msg : string)
| AttributeError (msg : string)
| KeyError (key : string)
| FileNotFoundError (filename : str)
| IsADirectoryError (filename : str)
| PermissionError (filename : str)
| NotADirectoryError (filename : str)
| OSError (errno : N) (filename : str)
| UnicodeDecodeError
| LookupError (msg : string)
| binascii_Error (msg : string)
| ClientError (cls : string) (msg : string).

(** The outcome of a call: a value, or a raised exception. *)
Inductive Result (A : Type) :=
| Ok (a : A)
| Raise (e : Exn).
Arguments Ok {A} a.
Arguments Raise {A} e.

(** ** The library functions the readers call *)

Module posixpath.

Definition sep : N := 47. (* "/" *)

Definition startswith_sep (p : str) : bool :=
  match p with
  | c :: _ => c =? sep
  | [] => false
  end.

Definition endswith_sep (p : str) : bool :=
  match last p with
  | Some c => c =? sep
  | None => false
  end.

(** One turn of the loop of [posixpath.join]:
<<
      for b in map(os.fspath, p):
          if b.startswith(sep):
              path = b
          elif not path or path.endswith(sep):
              path += b
          else:
              path += sep + b
>>
*)
Definition join_step (path : str) (b : str) : str :=
  if startswith_sep b then b
  else if bool_decide (path = []) || endswith_sep path then path ++ b
  else path ++ sep :: b.

(** [posixpath.join(a, *p)] on [str] arguments. *)
Definition join (a : str) (p : list str) : str :=
  fold_left join_step p a.

End posixpath.

Module codecs.

Definition in_range (lo hi x : N) : bool := (lo <=? x) && (x <=? hi).

Definition continuation (x : N) : bool := in_range 0x80 0xBF x.

(** Payload bits of a continuation byte. *)
Definition low6 (x : N) : N := N.land x 0x3F.

(** The strict UTF-8 decoder ([errors="strict"]): shortest form only, no
    surrogates, nothing above U+10FFFF.  [None] is [UnicodeDecodeError]. *)
Fixpoint utf_8_decode_N (data : list N) : option str :=
  match data with
  | [] => Some []
  | b0 :: rest =>
    if b0 <? 0x80 then cons b0 <$> utf_8_decode_N rest
    else if in_range 0xC2 0xDF b0 then
      match rest with
      | b1 :: rest1 =>
        if continuation b1
        then cons (N.lor (N.shiftl (N.land b0 0x1F) 6) (low6 b1))
               <$> utf_8_decode_N rest1
        else None
      | _ => None
      end
    else if in_range 0xE0 0xEF b0 then
      match rest with
      | b1 :: rest1 =>
        match rest1 with
        | b2 :: rest2 =>
          if in_range (if b0 =? 0xE0 then 0xA0 else 0x80)
                      (if b0 =? 0xED then 0x9F else 0xBF) b1
             && continuation b2
          then cons (N.lor (N.shiftl (N.land b0 0x0F) 12)
                       (N.lor (N.shiftl (low6 b1) 6) (low6 b2)))
                 <$> utf_8_decode_N rest2
          else None
        | _ => None
        end
      | _ => None
      end
    else if in_range 0xF0 0xF4 b0 then
      match rest with
      | b1 :: rest1 =>
        match rest1 with
        | b2 :: rest2 =>
          match rest2 with
          | b3 :: rest3 =>
            if in_range (if b0 =? 0xF0 then 0x90 else 0x80)
                        (if b0 =? 0xF4 then 0x8F else 0xBF) b1
               && continuation b2 && continuation b3
            then cons (N.lor (N.shiftl (N.land b0 0x07) 18)
                         (N.lor (N.shiftl (low6 b1) 12)
                            (N.lor (N.shiftl (low6 b2) 6) (low6 b3))))
                   <$> utf_8_decode_N rest3
            else None
          | _ => None
          end
        | _ => None
        end
      | _ => None
      end
    else None
  end.

Definition utf_8_decode (data : bytes) : option str :=
  utf_8_decode_N (map Byte.to_N data).

Definition CR : N := 13.
Definition LF : N := 10.

(** [output.replace("\r\n", "\n")] *)
Fixpoint replace_crlf (t : str) : str :=
  match t with
  | [] => []
  | c :: rest =>
    match rest with
    | d :: rest' =>
      if (c =? CR) && (d =? LF) then LF :: replace_crlf rest'
      else c :: replace_crlf rest
    | [] => [c]
    end
  end.

(** [output.replace("\r", "\n")] *)
Definition replace_cr (t : str) : str :=
  map (fun c => if c =? CR then LF else c) t.

(** [io.IncrementalNewlineDecoder(decoder, translate=True)] fed the whole
    input at once: the two replacements, in this order.  This is what a
    text file opened with the default [newline=None] applies to what it
    reads. *)
Definition universal_newlines (t : str) : str :=
  replace_cr (replace_crlf t).

End codecs.

Module base64.

Definition PAD : N := 61. (* "=" *)

(** [table_a2b_base64]: the 6-bit value of a character of the standard
    alphabet, [None] (the table's -1) for every other character. *)
Definition table_a2b_base64 (c : N) : option N :=
  if codecs.in_range 65 90 c then Some (c - 65)            (* A-Z *)
  else if codecs.in_range 97 122 c then Some (c - 97 + 26) (* a-z *)
  else if codecs.in_range 48 57 c then Some (c - 48 + 52)  (* 0-9 *)
  else if c =? 43 then Some 62                             (* + *)
  else if c =? 47 then Some 63                             (* / *)
  else None.

(** An octet stored into the output buffer. *)
Definition octet (n : N) : byte :=
  match Byte.of_N (n mod 256) with
  | Some x => x
  | None => x00
  end.

(** The loop of [binascii.a2b_base64] with [strict_mode=False]: characters
    outside the alphabet are skipped, a complete pad sequence ends the
    decoding, and leftover characters are an error.  [quad_pos], [leftchar]
    and [pads] are the C function's local variables, [out] the bytes written
    so far (the C function counts the data characters of its message from
    them). *)
Fixpoint a2b_base64_loop (ascii_data : list N) (quad_pos : nat) (leftchar : N)
    (pads : nat) (out : bytes) : Result bytes :=
  match ascii_data with
  | [] =>
    match quad_pos with
    | 0%nat => Ok out
    | 1%nat =>
      Raise (binascii_Error
               ("Invalid base64-encoded string: number of data characters ("
                ++ pretty (length out / 3 * 4 + 1)%nat
                ++ ") cannot be 1 more than a multiple of 4"))
    | _ => Raise (binascii_Error "Incorrect padding")
    end
  | this_ch :: rest =>
    if this_ch =? PAD then
      if (2 <=? quad_pos)%nat then
        if (4 <=? quad_pos + S pads)%nat then Ok out
        else a2b_base64_loop rest quad_pos leftchar (S pads) out
      else a2b_base64_loop rest quad_pos leftchar pads out
    else
      match table_a2b_base64 this_ch with
      | None => a2b_base64_loop rest quad_pos leftchar pads out
      | Some v =>
        match quad_pos with
        | 0%nat => a2b_base64_loop rest 1 v 0 out
        | 1%nat =>
          a2b_base64_loop rest 2 (N.land v 0x0f) 0
            (out ++ [octet (N.lor (N.shiftl leftchar 2) (N.shiftr v 4))])
        | 2%nat =>
          a2b_base64_loop rest 3 (N.land v 0x03) 0
            (out ++ [octet (N.lor (N.shiftl leftchar 4) (N.shiftr v 2))])
        | _ =>
          a2b_base64_loop rest 0 0 0
            (out ++ [octet (N.lor (N.shiftl leftchar 6) v)])
        end
      end
  end.

Definition a2b_base64 (ascii_data : list N) : Result bytes :=
  a2b_base64_loop ascii_data 0 0 0 [].

(** [base64.b64decode(s)] with the default [altchars=None, validate=False].
    The argument is what the attribute [content] held: a [str], or [None].
    A [str] is first encoded as ASCII ([_bytes_from_decode_data]). *)
Definition b64decode (s : option str) : Result bytes :=
  match s with
  | None =>
    Raise (TypeError "argument should be a bytes-like object or ASCII string, not 'NoneType'")
  | Some s =>
    if forallb (fun c => c <? 128) s then a2b_base64 s
    else Raise (ValueError "string argument should contain only ASCII characters")
  end.

End base64.

(** ** The collaborators *)

(** The handles a caller passes to a constructor: a [boto3] S3 client, a
    PyGithub [Repository], a GitPython [Repo].  The readers never look inside
    them; what a handle answers is part of the backing store. *)
Inductive boto3_client := Boto3Client (id : nat).
Inductive github_Repository := GithubRepository (id : nat).
Inductive git_Repo := GitRepo (id : nat).

(** What [open] meets under a path name: a regular file that can be read, or
    the reason why the name cannot be opened for reading.
    - [NoEntry]: no such file or directory (ENOENT), the last component or a
      directory on the way is missing;
    - [Directory]: the name is a directory (EISDIR);
    - [NoPermission]: access is refused (EACCES, EPERM);
    - [NotADirectory]: a component that has to be a directory is not one
      (ENOTDIR), as in [a.txt/x] where [a.txt] is a file;
    - [BadName]: the name holds a NUL character; Python refuses it before the
      operating system is asked;
    - [OtherFailure errno]: the operating system fails with any other error
      number (ELOOP, ENAMETOOLONG, EMFILE, EIO, ...). *)
Inductive FsNode :=
| NoEntry
| RegularFile (data : bytes)
| Directory
| NoPermission
| NotADirectory
| BadName
| OtherFailure (errno : N).

(** The file object [open] returns in text mode: its name, the bytes of the
    file and the encoding it decodes them with. *)
Record TextIOWrapper := {
  name : str;
  buffer : bytes;
  encoding : string
}.

(** The values of the [dict] that [get_object] returns: the body stream (what
    reading it to the end yields) or a piece of metadata. *)
Inductive S3Value :=
| StreamingBody (payload : Result bytes)
| Metadata (s : str).

(** A PyGithub [ContentFile]; [content] is the base64 text of the file, or
    [None] when the API sent none. *)
Record ContentFile := {
  cf_path : str;
  content : option str
}.

(** [Repository.get_contents] returns one [ContentFile] for a file and a list
    of them for a directory. *)
Inductive Contents :=
| OneFile (content_file : ContentFile)
| Listing (entries : list ContentFile).

(** The backing stores: what each collaborator answers.
    - [disk file]: what the operating system answers for the name [file];
    - [s3 client Bucket Key]: the outcome of [client.get_object];
    - [github repo path]: the outcome of [repo.get_contents];
    - [git repo]: the attribute [repo.working_tree_dir] ([None] for a bare
      repository). *)
Record Backing := {
  disk : str -> FsNode;
  s3 : boto3_client -> str -> str -> Result (gmap string S3Value);
  github : github_Repository -> str -> Result Contents;
  git : git_Repo -> option str
}.

(** A name with a NUL character in it. *)
Definition has_NUL (file : str) : bool :=
  existsb (N.eqb 0) file.

(** [filesystem bk file]: what [open] meets under the name [file].  A name
    with a NUL never reaches the operating system; every other name gets the
    operating system's answer. *)
Definition filesystem (bk : Backing) (file : str) : FsNode :=
  if has_NUL file then BadName else disk bk file.
Arguments filesystem : simpl never.

(** ** Reader instances *)

(** An instance of one of the six classes with the attributes its [__init__]
    sets. *)
Inductive Instance :=
| ReaderImp_obj
| LocalReaderImp_obj (path_prefix : str)
| S3ReaderImp_obj (client : boto3_client) (bucket : str)
| GithubGetContentsReaderImp_obj (repo : github_Repository)
| GithubCloneRepoReaderImp_obj (repo : git_Repo)
| TransparentReaderImp_obj.

(** A reference to an instance. *)
Abbreviation ref := nat.

(** ** The trace of collaborator calls *)

(** Every operation a [read] body performs on something that is not the reader
    itself: library calls, client calls, and the attribute and item lookups on
    what they returned. *)
Inductive Call :=
| call_os_path_join (args : list (option str)) (kwargs : list (string * str))
| call_open (file : str) (enc : string)
| call_enter
| call_file_read (file : str)
| call_exit (file : str)
| call_get_object (client : boto3_client) (Bucket Key : str)
| call_getitem (key : string)
| call_body_read
| call_get_contents (repo : github_Repository) (path : str)
| call_getattr_content
| call_b64decode (s : option str)
| call_working_tree_dir (repo : git_Repo).

Inductive Outcome :=
| Returned
| Raised (e : Exn).

Abbreviation Event := (Call * Outcome)%type.

Definition outcome {A} (r : Result A) : Outcome :=
  match r with
  | Ok _ => Returned
  | Raise e => Raised e
  end.

(** ** The interpreter state and the monad of Python code *)

Record Machine := {
  backing : Backing;
  heap : gmap nat Instance;
  open_files : list str;
  trace : list Event
}.

Definition log (ev : Event) (m : Machine) : Machine :=
  {| backing := backing m; heap := heap m;
     open_files := open_files m; trace := trace m ++ [ev] |}.

Definition store (r : ref) (obj : Instance) (m : Machine) : Machine :=
  {| backing := backing m; heap := <[r:=obj]> (heap m);
     open_files := open_files m; trace := trace m |}.

Definition acquire (file : str) (m : Machine) : Machine :=
  {| backing := backing m; heap := heap m;
     open_files := file :: open_files m; trace := trace m |}.

Fixpoint remove_first (file : str) (l : list str) : list str :=
  match l with
  | [] => []
  | x :: l' => if bool_decide (x = file) then l' else x :: remove_first file l'
  end.

Definition release (file : str) (m : Machine) : Machine :=
  {| backing := backing m; heap := heap m;
     open_files := remove_first file (open_files m); trace := trace m |}.

(** A piece of Python code producing an [A]: it runs from a machine state to
    an outcome and a new state. *)
Definition M (A : Type) : Type := Machine -> Result A * Machine.

Definition ret {A} (a : A) : M A :=
  fun m => (Ok a, m).

Definition raise {A} (e : Exn) : M A :=
  fun m => (Raise e, m).

Definition bind {A B} (c : M A) (k : A -> M B) : M B :=
  fun m =>
    match c m with
    | (Ok a, m') => k a m'
    | (Raise e, m') => (Raise e, m')
    end.

Declare Scope py_scope.
Delimit Scope py_scope with py.
Notation "x <- c ;; k" := (bind c (fun x => k))
  (at level 100, c at next level, right associativity) : py_scope.
Notation "c ;; k" := (bind c (fun _ => k))
  (at level 100, right associativity) : py_scope.
Local Open Scope py_scope.

Definition gets {A} (f : Machine -> A) : M A :=
  fun m => (Ok (f m), m).

Definition modify (f : Machine -> Machine) : M unit :=
  fun m => (Ok tt, f m).

(** [try: body finally: cleanup]: the cleanup runs on both exits; the outcome
    is the body's unless the cleanup itself raises. *)
Definition finally {A} (body : M A) (cleanup : M unit) : M A :=
  fun m =>
    let (r, m1) := body m in
    match cleanup m1 with
    | (Ok _, m2) => (r, m2)
    | (Raise e, m2) => (Raise e, m2)
    end.

(** A call into a collaborator: the call and its outcome go to the trace, and
    the outcome is the call's. *)
Definition invoke {A} (c : Call) (r : Result A) : M A :=
  fun m => (r, log (c, outcome r) m).

Definition run {A} (c : M A) (m : Machine) : Result A := fst (c m).
Definition exec {A} (c : M A) (m : Machine) : Machine := snd (c m).

(** ** Built-ins and client calls *)

(** [os.path.join] called with positional arguments [args] and keyword
    arguments [kwargs].  [posixpath.join] is declared
    [def join(a, *p)]: it takes no keyword argument, so a call with one fails
    while the arguments are bound, before the body runs. *)
Definition os_path_join (args : list (option str)) (kwargs : list (string * str))
    : M str :=
  invoke (call_os_path_join args kwargs)
    match kwargs with
    | (k, _) :: _ =>
      Raise (TypeError ("join() got an unexpected keyword argument '" ++ k ++ "'"))
    | [] =>
      match args with
      | [] => Raise (TypeError "join() missing 1 required positional argument: 'a'")
      | a :: p =>
        match a, mapM id p with
        | Some a, Some p => Ok (posixpath.join a p)
        | _, _ =>
          Raise (TypeError "expected str, bytes or os.PathLike object, not NoneType")
        end
      end
    end.

(** [open(file, encoding=enc)], mode ["r"]: text, read-only.  The codec this
    model knows is the one the source asks for, UTF-8.  Each way in which the
    name cannot be opened has its exception: the subclasses of [OSError] that
    Python maps the error numbers to, [OSError] itself for the others, and
    [ValueError] for a name with a NUL. *)
Definition open (file : str) (enc : string) : M TextIOWrapper :=
  fs <- gets (fun m => filesystem (backing m)) ;;
  f <- invoke (call_open file enc)
         (if bool_decide (enc = "utf-8") then
            match fs file with
            | RegularFile data => Ok {| name := file; buffer := data; encoding := enc |}
            | NoEntry => Raise (FileNotFoundError file)
            | Directory => Raise (IsADirectoryError file)
            | NoPermission => Raise (PermissionError file)
            | NotADirectory => Raise (NotADirectoryError file)
            | BadName => Raise (ValueError "embedded null byte")
            | OtherFailure errno => Raise (OSError errno file)
            end
          else Raise (LookupError ("unknown encoding: " ++ enc))) ;;
  modify (acquire file) ;;
  ret f.

(** [f.read()] on a text file: the whole buffer, decoded, newlines
    translated.  The source opens the file without a [newline] argument, so
    it is the default [None]: universal newlines, ["\r\n"] and ["\r"] are
    given to the caller as ["\n"]. *)
Definition TextIOWrapper_read (f : TextIOWrapper) : M str :=
  invoke (call_file_read (name f))
    match codecs.utf_8_decode (buffer f) with
    | Some text => Ok (codecs.universal_newlines text)
    | None => Raise UnicodeDecodeError
    end.

(** [f.read()] when [f] is a [str]. *)
Definition str_read (f : str) : M str :=
  raise (AttributeError "'str' object has no attribute 'read'").

(** The context-manager protocol of the [with] statement. *)
Class ContextManager (R T : Type) := {
  __enter__ : R -> M T;
  __exit__ : R -> M unit
}.

(** A file enters as itself and closes on exit. *)
#[global] Instance TextIOWrapper_cm : ContextManager TextIOWrapper TextIOWrapper := {|
  __enter__ f := invoke call_enter (Ok f);
  __exit__ f := modify (release (name f)) ;; invoke (call_exit (name f)) (Ok tt)
|}.

(** A [str] has no [__enter__]: the [with] statement raises before its body
    (a [TypeError] since Python 3.11, an [AttributeError] before). *)
#[global] Instance str_cm : ContextManager str str := {|
  __enter__ _ :=
    invoke call_enter
      (Raise (TypeError "'str' object does not support the context manager protocol"));
  __exit__ _ := ret tt
|}.

(** [with expr as target: body] *)
Definition with_ {R T A} `{ContextManager R T} (expr : M R) (body : T -> M A) : M A :=
  mgr <- expr ;;
  target <- __enter__ mgr ;;
  finally (body target) (__exit__ mgr).

(** [client.get_object(Bucket=Bucket, Key=Key)] *)
Definition get_object (client : boto3_client) (Bucket Key : str)
    : M (gmap string S3Value) :=
  answer <- gets (fun m => s3 (backing m) client Bucket Key) ;;
  invoke (call_get_object client Bucket Key) answer.

(** [response[key]] *)
Definition getitem (response : gmap string S3Value) (key : string) : M S3Value :=
  invoke (call_getitem key)
    match response !! key with
    | Some v => Ok v
    | None => Raise (KeyError key)
    end.

(** [body.read()] *)
Definition StreamingBody_read (body : S3Value) : M bytes :=
  invoke call_body_read
    match body with
    | StreamingBody payload => payload
    | Metadata _ => Raise (AttributeError "'str' object has no attribute 'read'")
    end.

(** [repo.get_contents(path)] *)
Definition get_contents (repo : github_Repository) (path : str) : M Contents :=
  answer <- gets (fun m => github (backing m) repo path) ;;
  invoke (call_get_contents repo path) answer.

(** [content_file.content] *)
Definition getattr_content (content_file : Contents) : M (option str) :=
  invoke call_getattr_content
    match content_file with
    | OneFile cf => Ok (content cf)
    | Listing _ => Raise (AttributeError "'list' object has no attribute 'content'")
    end.

(** [base64.b64decode(s)] *)
Definition base64_b64decode (s : option str) : M bytes :=
  invoke (call_b64decode s) (base64.b64decode s).

(** [repo.working_tree_dir] *)
Definition working_tree_dir (repo : git_Repo) : M (option str) :=
  d <- gets (fun m => git (backing m) repo) ;;
  invoke (call_working_tree_dir repo) (Ok d).

(** ** Objects *)

(** Calling a class: a fresh instance holding what [__init__] assigns. *)
Definition new (obj : Instance) : M ref :=
  fun m => let r := fresh (dom (heap m)) in (Ok r, store r obj m).

(** [self.<attribute>]: the attribute of the instance [self] refers to; an
    instance of another class does not have it. *)
Definition getattr {A} (self : ref) (attribute : string)
    (field : Instance -> option A) : M A :=
  obj <- gets (fun m => heap m !! self) ;;
  match obj ≫= field with
  | Some a => ret a
  | None => raise (AttributeError attribute)
  end.

(** ** The classes *)

Module ReaderImp.

(** [ReaderImp()] *)
Definition __init__ : M ref := new ReaderImp_obj.

(** [raise NotImplementedError] *)
Definition read (self : ref) (path : str) : M str :=
  raise NotImplementedError.

End ReaderImp.

Module LocalReaderImp.

(** [self.path_prefix = path_prefix] *)
Definition __init__ (path_prefix : str) : M ref :=
  new (LocalReaderImp_obj path_prefix).

Definition self_path_prefix (self : ref) : M str :=
  getattr self "path_prefix"
    (fun obj => match obj with LocalReaderImp_obj p => Some p | _ => None end).

(**
<<
        with open(os.path.join(self.path_prefix, path), encoding="utf-8") as f:
            contents = f.read()
        return contents
>>
*)
Definition read (self : ref) (path : str) : M str :=
  path_prefix <- self_path_prefix self ;;
  file <- os_path_join [Some path_prefix; Some path] [] ;;
  contents <- with_ (open file "utf-8") (fun f => TextIOWrapper_read f) ;;
  ret contents.

End LocalReaderImp.

Module S3ReaderImp.

(** [self.client = boto3_client; self.bucket = bucket] *)
Definition __init__ (boto3_client : boto3_client) (bucket : str) : M ref :=
  new (S3ReaderImp_obj boto3_client bucket).

Definition self_client (self : ref) : M boto3_client :=
  getattr self "client"
    (fun obj => match obj with S3ReaderImp_obj c _ => Some c | _ => None end).

Definition self_bucket (self : ref) : M str :=
  getattr self "bucket"
    (fun obj => match obj with S3ReaderImp_obj _ bk => Some bk | _ => None end).

(**
<<
        response = self.client.get_object(Bucket=self.bucket, Key=path)
        return response["Body"].read()
>>
*)
Definition read (self : ref) (path : str) : M bytes :=
  client <- self_client self ;;
  bucket <- self_bucket self ;;
  response <- get_object client bucket path ;;
  body <- getitem response "Body" ;;
  StreamingBody_read body.

End S3ReaderImp.

Module GithubGetContentsReaderImp.

(** [self.repo = pygithub_repo] *)
Definition __init__ (pygithub_repo : github_Repository) : M ref :=
  new (GithubGetContentsReaderImp_obj pygithub_repo).

Definition self_repo (self : ref) : M github_Repository :=
  getattr self "repo"
    (fun obj => match obj with GithubGetContentsReaderImp_obj r => Some r | _ => None end).

(**
<<
        content_file = self.repo.get_contents(path)
        return base64.b64decode(content_file.content)
>>
*)
Definition read (self : ref) (path : str) : M bytes :=
  repo <- self_repo self ;;
  content_file <- get_contents repo path ;;
  s <- getattr_content content_file ;;
  base64_b64decode s.

End GithubGetContentsReaderImp.

Module GithubCloneRepoReaderImp.

(** [self.repo = gitpython_repo] *)
Definition __init__ (gitpython_repo : git_Repo) : M ref :=
  new (GithubCloneRepoReaderImp_obj gitpython_repo).

Definition self_repo (self : ref) : M git_Repo :=
  getattr self "repo"
    (fun obj => match obj with GithubCloneRepoReaderImp_obj r => Some r | _ => None end).

(**
<<
        # TODO:
        with os.path.join(self.repo.working_tree_dir, path, encoding="utf-8") as f:
            contents = f.read()
        return contents
>>
    The keyword [encoding] goes to [os.path.join], not to an [open] around
    it, and the [with] statement is given the joined [str]. *)
Definition read (self : ref) (path : str) : M str :=
  repo <- self_repo self ;;
  dir <- working_tree_dir repo ;;
  contents <- with_ (os_path_join [dir; Some path] [("encoding", u "utf-8")])
                (fun f => str_read f) ;;
  ret contents.

End GithubCloneRepoReaderImp.

Module TransparentReaderImp.

(** [TransparentReaderImp()] *)
Definition __init__ : M ref := new TransparentReaderImp_obj.

(** [return path], whatever [path] is. *)
Definition read {A : Type} (self : ref) (path : A) : M A :=
  ret path.

End TransparentReaderImp.

(** [reader.read(path)]: the method of the class of the instance. *)
Definition read (self : ref) (path : str) : M value :=
  obj <- gets (fun m => heap m !! self) ;;
  match obj with
  | Some ReaderImp_obj =>
    contents <- ReaderImp.read self path ;; ret (VStr contents)
  | Some (LocalReaderImp_obj _) =>
    contents <- LocalReaderImp.read self path ;; ret (VStr contents)
  | Some (S3ReaderImp_obj _ _) =>
    contents <- S3ReaderImp.read self path ;; ret (VBytes contents)
  | Some (GithubGetContentsReaderImp_obj _) =>
    contents <- GithubGetContentsReaderImp.read self path ;; ret (VBytes contents)
  | Some (GithubCloneRepoReaderImp_obj _) =>
    contents <- GithubCloneRepoReaderImp.read self path ;; ret (VStr contents)
  | Some TransparentReaderImp_obj =>
    contents <- TransparentReaderImp.read self path ;; ret (VStr contents)
  | None => raise (AttributeError "read")
  end.

(** ** A sample world *)

(** A disk without symbolic links: the directories and the regular files
    under their absolute names, component by component. *)
Inductive Inode :=
| IFile (data : bytes)
| IDir.

(** The sample disk: [/srv/data] with a text file, a file with carriage
    returns and a file that is not UTF-8, and [/etc/hostname]. *)
Definition sample_tree : gmap (list str) Inode :=
  list_to_map
    [ ([], IDir);
      ([u "srv"], IDir);
      ([u "srv"; u "data"], IDir);
      ([u "srv"; u "data"; u "a.txt"], IFile (b "hello"));
      ([u "srv"; u "data"; u "dos.txt"], IFile [x61; x0d; x0a; x62]);
      ([u "srv"; u "data"; u "latin1.txt"], IFile [xe9]);
      ([u "etc"], IDir);
      ([u "etc"; u "hostname"], IFile (b "box")) ].

(** The components of a path name: [file.split("/")]. *)
Fixpoint components (file : str) : list str :=
  match file with
  | [] => [[]]
  | c :: rest =>
    if c =? posixpath.sep then [] :: components rest
    else match components rest with
         | word :: words => (c :: word) :: words
         | [] => [[c]]
         end
  end.

(** Path resolution from the directory [cur]: before each component, also an
    empty one, [cur] has to be a directory; an empty component and ["."]
    stay, [".."] goes up, a name goes down. *)
Fixpoint walk (tree : gmap (list str) Inode) (cur : list str) (todo : list str)
    : FsNode :=
  match todo with
  | [] =>
    match tree !! cur with
    | Some (IFile data) => RegularFile data
    | Some IDir => Directory
    | None => NoEntry
    end
  | c :: rest =>
    match tree !! cur with
    | Some IDir =>
      if bool_decide (c = []) || bool_decide (c = u ".") then walk tree cur rest
      else if bool_decide (c = u "..") then walk tree (removelast cur) rest
      else walk tree (cur ++ [c]) rest
    | Some (IFile _) => NotADirectory
    | None => NoEntry
    end
  end.

(** What the operating system answers for a name on such a disk, the working
    directory being the root; the empty name names nothing. *)
Definition resolve (tree : gmap (list str) Inode) (file : str) : FsNode :=
  if bool_decide (file = []) then NoEntry
  else walk tree [] (components file).

Definition sample_filesystem (file : str) : FsNode :=
  resolve sample_tree file.

(** One object under the key [k] of the bucket [bk]; every other request is
    refused by the client. *)
Definition sample_s3 (client : boto3_client) (Bucket Key : str)
    : Result (gmap string S3Value) :=
  if bool_decide (Bucket = u "bk") && bool_decide (Key = u "k")
  then Ok {[ "Body" := StreamingBody (Ok (b "payload")) ]}
  else Raise (ClientError "NoSuchKey" "The specified key does not exist.").

(** A repository with a file [README], a directory [src] and nothing else. *)
Definition sample_github (repo : github_Repository) (path : str) : Result Contents :=
  if bool_decide (path = u "README")
  then Ok (OneFile {| cf_path := path; content := Some (u "aGVsbG8=") |})
  else if bool_decide (path = u "src") then Ok (Listing [])
  else Raise (ClientError "UnknownObjectException" "404").

Definition sample_backing : Backing := {|
  disk := sample_filesystem;
  s3 := sample_s3;
  github := sample_github;
  git := fun _ => Some (u "/srv/data")
|}.

(** A machine that has run nothing yet. *)
Definition boot (bk : Backing) : Machine :=
  {| backing := bk; heap := ∅; open_files := []; trace := [] |}.

Definition sample : Machine := boot sample_backing.

(** ** Reading a trace *)

(** The exceptions raised by the calls of a trace, in order. *)
Definition raised (t : list Event) : list Exn :=
  omap (fun ev : Event => match ev.2 with Raised e => Some e | Returned => None end) t.

(** The [get_object] requests of a trace. *)
Definition get_object_requests (t : list Event)
    : list (boto3_client * str * str) :=
  omap (fun ev : Event =>
          match ev.1 with
          | call_get_object c bk k => Some (c, bk, k)
          | _ => None
          end) t.

(** The names passed to [open] in a trace. *)
Definition opened (t : list Event) : list str :=
  omap (fun ev : Event =>
          match ev.1 with
          | call_open file _ => Some file
          | _ => None
          end) t.

(** The five concrete reader classes. *)
Definition is_variant (obj : Instance) : bool :=
  match obj with
  | ReaderImp_obj => false
  | _ => true
  end.

(** ** Callers *)

(** A caller that makes one [read] after another, on any readers and paths,
    and goes on whatever the outcome of each. *)
Definition session (calls : list (ref * str)) (m : Machine) : Machine :=
  foldl (fun m' call => exec (read call.1 call.2) m') m calls.

(** The sample machine after [LocalReaderImp("/srv/data")] and after
    [S3ReaderImp(client, "bk")]; the new instance is at reference 0 in
    each. *)
Definition sample_local : Machine :=
  exec (LocalReaderImp.__init__ (u "/srv/data")) sample.

Definition sample_s3_reader : Machine :=
  exec (S3ReaderImp.__init__ (Boto3Client 0) (u "bk")) sample.

(** A machine with some history: an S3 reader at reference 0 that has been
    used, then [LocalReaderImp("/srv/data")] at reference 1. *)
Definition sample_busy : Machine :=
  exec (LocalReaderImp.__init__ (u "/srv/data"))
    (session [(0%nat, u "k"); (0%nat, u "missing")] sample_s3_reader).

(** ** More ways to read a trace *)

(** The names of the files that [open] returned in a trace, and the names of
    the files closed by an [__exit__]. *)
Definition opened_ok (t : list Event) : list str :=
  omap (fun ev : Event =>
          match ev with
          | (call_open file _, Returned) => Some file
          | _ => None
          end) t.

Definition closed (t : list Event) : list str :=
  omap (fun ev : Event =>
          match ev.1 with
          | call_exit file => Some file
          | _ => None
          end) t.

(** The arguments of the calls to [base64.b64decode] in a trace. *)
Definition decoded (t : list Event) : list (option str) :=
  omap (fun ev : Event =>
          match ev.1 with
          | call_b64decode s => Some s
          | _ => None
          end) t.

(** What follows the first call that raised. *)
Fixpoint after_first_raise (t : list Event) : list Event :=
  match t with
  | [] => []
  | (_, Raised _) :: rest => rest
  | (_, Returned) :: rest => after_first_raise rest
  end.

Definition is_exit (c : Call) : bool :=
  match c with
  | call_exit _ => true
  | _ => false
  end.

#[global] Instance boto3_client_eq_dec : EqDecision boto3_client.
Proof. solve_decision. Defined.

#[global] Instance github_Repository_eq_dec : EqDecision github_Repository.
Proof. solve_decision. Defined.

#[global] Instance git_Repo_eq_dec : EqDecision git_Repo.
Proof. solve_decision. Defined.

(** The operations that belong to a reader: the library and filesystem calls
    for a local reader; requests to its own client and bucket, and what is
    done with the response, for an S3 reader; requests to its own repository,
    and what is done with the answer, for the two Github readers; none for
    the pass-through reader and the interface class. *)
Definition permitted (obj : Instance) (c : Call) : bool :=
  match obj, c with
  | LocalReaderImp_obj _, call_os_path_join _ _ => true
  | LocalReaderImp_obj _, call_open _ _ => true
  | LocalReaderImp_obj _, call_enter => true
  | LocalReaderImp_obj _, call_file_read _ => true
  | LocalReaderImp_obj _, call_exit _ => true
  | S3ReaderImp_obj client bucket, call_get_object client' Bucket _ =>
    bool_decide (client' = client) && bool_decide (Bucket = bucket)
  | S3ReaderImp_obj _ _, call_getitem _ => true
  | S3ReaderImp_obj _ _, call_body_read => true
  | GithubGetContentsReaderImp_obj repo, call_get_contents repo' _ =>
    bool_decide (repo' = repo)
  | GithubGetContentsReaderImp_obj _, call_getattr_content => true
  | GithubGetContentsReaderImp_obj _, call_b64decode _ => true
  | GithubCloneRepoReaderImp_obj repo, call_working_tree_dir repo' =>
    bool_decide (repo' = repo)
  | GithubCloneRepoReaderImp_obj _, call_os_path_join _ _ => true
  | GithubCloneRepoReaderImp_obj _, call_enter => true
  | _, _ => false
  end.

(** ** The text of a file *)

(** What the text of a file is to a Python program, said without the
    program: the bytes under the name, decoded as UTF-8, with the line ends
    translated; or the error for a name that cannot be opened, or for bytes
    that are not UTF-8. *)
Definition text_at (bk : Backing) (file : str) : Result value :=
  match filesystem bk file with
  | RegularFile data =>
    match codecs.utf_8_decode data with
    | Some text => Ok (VStr (codecs.universal_newlines text))
    | None => Raise UnicodeDecodeError
    end
  | NoEntry => Raise (FileNotFoundError file)
  | Directory => Raise (IsADirectoryError file)
  | NoPermission => Raise (PermissionError file)
  | NotADirectory => Raise (NotADirectoryError file)
  | BadName => Raise (ValueError "embedded null byte")
  | OtherFailure errno => Raise (OSError errno file)
  end.

(** ** The encoding the content API uses *)

Module rfc4648.

(** The base64 alphabet of RFC 4648, section 4: the character of a 6-bit
    value. *)
Definition alphabet (v : N) : N :=
  if v <? 26 then v + 65            (* A-Z *)
  else if v <? 52 then v - 26 + 97  (* a-z *)
  else if v <? 62 then v - 52 + 48  (* 0-9 *)
  else if v =? 62 then 43           (* + *)
  else 47.                          (* / *)

(** The four 6-bit groups of the 24 bits of three octets [a], [b], [c]:
    [group1 a], [group2 a b], [group3 b c], [group4 c]. *)
Definition group1 (a : N) : N := N.shiftr a 2.
Definition group2 (a b : N) : N := N.lor (N.shiftl (N.land a 3) 4) (N.shiftr b 4).
Definition group3 (b c : N) : N := N.lor (N.shiftl (N.land b 15) 2) (N.shiftr c 6).
Definition group4 (c : N) : N := N.land c 63.

(** The base64 encoding of a byte string: three octets give four characters;
    one or two octets left over are filled up with zero bits and padded with
    ["="].  This is the text a hosting API sends as the [content] of a file
    (it also breaks it into lines). *)
Fixpoint encode (data : bytes) : str :=
  match data with
  | [] => []
  | x :: rest =>
    let a := Byte.to_N x in
    match rest with
    | [] => [alphabet (group1 a); alphabet (group2 a 0); base64.PAD; base64.PAD]
    | y :: rest1 =>
      let b := Byte.to_N y in
      match rest1 with
      | [] =>
        [alphabet (group1 a); alphabet (group2 a b); alphabet (group3 b 0);
         base64.PAD]
      | z :: rest2 =>
        let c := Byte.to_N z in
        alphabet (group1 a) :: alphabet (group2 a b) :: alphabet (group3 b c)
          :: alphabet (group4 c) :: encode rest2
      end
    end
  end.

(** The characters that carry data or padding; a decoder that is not strict
    passes over the others. *)
Definition significant (c : N) : bool :=
  (c =? base64.PAD)
  || match base64.table_a2b_base64 c with Some _ => true | None => false end.

End rfc4648.

(** The numbers below 256 and below 64, and a check of a property of two
    octets on all of them. *)
Definition below_256 : list N := map N.of_nat (seq 0 256).
Definition below_64 : list N := map N.of_nat (seq 0 64).

Definition both_below_256 (P : N -> N -> bool) : bool :=
  forallb (fun a => forallb (P a) below_256) below_256.

(** ** A second sample world *)

(** A repository whose [README] is sent as the API sends it, broken into
    lines, and whose [big.bin] comes without content. *)
Definition wrapped_README : str := u "aGVs" ++ [10] ++ u "bG8=" ++ [10].

Definition unusual_github (repo : github_Repository) (path : str) : Result Contents :=
  if bool_decide (path = u "README")
  then Ok (OneFile {| cf_path := path; content := Some wrapped_README |})
  else if bool_decide (path = u "big.bin")
  then Ok (OneFile {| cf_path := path; content := None |})
  else Raise (ClientError "UnknownObjectException" "404").

(** A client whose responses carry metadata and no ["Body"]. *)
Definition unusual_s3 (client : boto3_client) (Bucket Key : str)
    : Result (gmap string S3Value) :=
  Ok {[ "ContentType" := Metadata (u "text/plain") ]}.

Definition unusual : Machine :=
  boot {| disk := sample_filesystem; s3 := unusual_s3;
          github := unusual_github; git := fun _ => None |}.

(** * Properties *)

Arguments posixpath.join : simpl never.
Arguments codecs.utf_8_decode : simpl never.
Arguments codecs.universal_newlines : simpl never.
Arguments base64.b64decode : simpl never.

(** Symbolic execution: unfold the monad, the built-ins and the methods, and
    resolve the attribute lookups against what is known of the heap. *)
Ltac py_unfold :=
  repeat progress
    (unfold run, exec, bind, ret, raise, gets, modify, invoke, finally, with_,
       new, getattr, read, ReaderImp.read, ReaderImp.__init__,
       LocalReaderImp.read, LocalReaderImp.__init__,
       LocalReaderImp.self_path_prefix,
       S3ReaderImp.read, S3ReaderImp.__init__, S3ReaderImp.self_client,
       S3ReaderImp.self_bucket,
       GithubGetContentsReaderImp.read, GithubGetContentsReaderImp.__init__,
       GithubGetContentsReaderImp.self_repo,
       GithubCloneRepoReaderImp.read, GithubCloneRepoReaderImp.__init__,
       GithubCloneRepoReaderImp.self_repo,
       TransparentReaderImp.read, TransparentReaderImp.__init__,
       os_path_join, open, TextIOWrapper_read, str_read, get_object, getitem,
       StreamingBody_read, get_contents, getattr_content, base64_b64decode,
       working_tree_dir, log, store, acquire, release, outcome;
     simpl).

Ltac py_heap :=
  repeat match goal with
         | H : heap _ !! _ = _ |- _ => rewrite H
         | |- context [<[?r:=_]> _ !! ?r] => rewrite lookup_insert_eq
         end.

Ltac py_run := repeat progress (py_unfold; py_heap).

(** Case analysis on what the collaborators answer. *)
Ltac py_cases :=
  repeat (match goal with
          | |- context [match ?x with _ => _ end] => destruct x eqn:?
          end; py_run).

(** *** The library functions *)

Section posixpath_facts.

Import posixpath.

(** Joining with an absolute path drops what came before. *)
Lemma join_absolute (a p : str) :
  startswith_sep p = true -> join a [p] = p.
Proof.
  intros Hp. unfold join. simpl. unfold join_step. now rewrite Hp.
Qed.

(** Joining with a relative path keeps the first component as a prefix. *)
Lemma join_relative (a p : str) :
  startswith_sep p = false ->
  join a [p] = a ++ p \/ join a [p] = a ++ sep :: p.
Proof.
  intros Hp. unfold join. simpl. unfold join_step. rewrite Hp.
  destruct (bool_decide (a = []) || endswith_sep a); auto.
Qed.

Lemma join_relative_prefix (a p : str) :
  startswith_sep p = false -> a `prefix_of` join a [p].
Proof.
  intros Hp. destruct (join_relative a p Hp) as [-> | ->]; eexists; reflexivity.
Qed.

(** The usual case: a non-empty root without a trailing separator. *)
Lemma join_root_slash (a p : str) :
  startswith_sep p = false -> a <> [] -> endswith_sep a = false ->
  join a [p] = a ++ sep :: p.
Proof.
  intros Hp Ha He. unfold join. simpl. unfold join_step. rewrite Hp, He.
  rewrite bool_decide_eq_false_2 by assumption. reflexivity.
Qed.

End posixpath_facts.

Section newline_facts.

Import codecs.

Lemma replace_crlf_no_CR (t : str) : CR ∉ t -> replace_crlf t = t.
Proof.
  induction t as [| c [| d rest] IH]; intros Hno; try reflexivity.
  cbn [replace_crlf].
  assert (c <> CR) as Hc by (intros ->; apply Hno; left).
  apply N.eqb_neq in Hc. rewrite Hc. cbn [andb].
  f_equal. apply IH. intros Hin. apply Hno. now right.
Qed.

Lemma replace_cr_no_CR (t : str) : CR ∉ t -> replace_cr t = t.
Proof.
  unfold replace_cr. induction t as [| c rest IH]; intros Hno; [reflexivity |].
  cbn [map]. assert (c <> CR) as Hc by (intros ->; apply Hno; left).
  apply N.eqb_neq in Hc. rewrite Hc. f_equal. apply IH.
  intros Hin. apply Hno. now right.
Qed.

(** Text without a carriage return goes through unchanged. *)
Lemma universal_newlines_no_CR (t : str) : CR ∉ t -> universal_newlines t = t.
Proof.
  intros Hno. unfold universal_newlines.
  rewrite replace_crlf_no_CR by assumption. now apply replace_cr_no_CR.
Qed.

(** What comes out never holds a carriage return. *)
Lemma universal_newlines_drops_CR (t : str) : CR ∉ universal_newlines t.
Proof.
  unfold universal_newlines, replace_cr. intros Hin.
  apply list_elem_of_In, in_map_iff in Hin. destruct Hin as (c & Hc & _).
  destruct (c =? CR) eqn:E; [discriminate |].
  apply N.eqb_neq in E. congruence.
Qed.

(** So text that holds one is never returned as it is. *)
Lemma universal_newlines_changes (t : str) : CR ∈ t -> universal_newlines t <> t.
Proof.
  intros Hin Heq. apply (universal_newlines_drops_CR t). now rewrite Heq.
Qed.

End newline_facts.

(** *** The machine *)

Lemma remove_first_head (file : str) (l : list str) :
  remove_first file (file :: l) = l.
Proof. simpl. now rewrite bool_decide_eq_true_2. Qed.

Arguments remove_first : simpl never.

Ltac py_case :=
  match goal with
  | |- context [match ?x with _ => _ end] =>
    lazymatch x with
    | context [match _ with _ => _ end] => fail
    | _ => destruct x eqn:?
    end
  end.

Ltac py_exec := repeat progress (py_run; rewrite ?remove_first_head).

Ltac py_all := py_exec; repeat (py_case; py_exec).

(** Allocation returns a reference to the new instance and touches nothing
    but the heap. *)
Lemma new_spec (obj : Instance) (m : Machine) :
  exists self,
    new obj m = (Ok self, store self obj m) /\ heap m !! self = None.
Proof.
  exists (fresh (dom (heap m))). split; [reflexivity |].
  apply not_elem_of_dom, is_fresh.
Qed.

Lemma new_keeps (obj : Instance) (m : Machine) (r : ref) (old : Instance) :
  heap m !! r = Some old -> heap (exec (new obj) m) !! r = Some old.
Proof.
  intros Hr. destruct (new_spec obj m) as (self & Hnew & Hfresh).
  unfold exec. rewrite Hnew. simpl.
  rewrite lookup_insert_ne; [assumption | congruence].
Qed.

(** [read] changes neither the heap nor the backing stores, and leaves open
    no file that was not open before: what it opens it closes, on the normal
    and on the exceptional exit. *)
Lemma read_frame (self : ref) (path : str) (m : Machine) :
  heap (exec (read self path) m) = heap m /\
  backing (exec (read self path) m) = backing m /\
  open_files (exec (read self path) m) = open_files m.
Proof.
  destruct (heap m !! self) as [obj |] eqn:H; [destruct obj |]; py_all; auto.
Qed.

Lemma session_frame (calls : list (ref * str)) (m : Machine) :
  heap (session calls m) = heap m /\
  backing (session calls m) = backing m /\
  open_files (session calls m) = open_files m.
Proof.
  unfold session. revert m.
  induction calls as [| [r p] calls IH]; intros m; [now cbn |].
  cbn [foldl]. destruct (IH (exec (read r p) m)) as (Hh & Hb & Ho).
  destruct (read_frame r p m) as (Hh' & Hb' & Ho').
  cbn [fst snd] in *. rewrite Hh, Hb, Ho. auto.
Qed.

(** The outcome of [read] is decided by the instance, the backing stores and
    the path: the rest of the machine (other instances, the trace, open
    files) does not count. *)
Lemma read_run_congr (m1 m2 : Machine) (s1 s2 : ref) (path : str) :
  heap m1 !! s1 = heap m2 !! s2 ->
  backing m1 = backing m2 ->
  run (read s1 path) m1 = run (read s2 path) m2.
Proof.
  intros Hobj Hbk.
  destruct (heap m2 !! s2) as [obj |] eqn:H2; [destruct obj |];
    py_exec; rewrite ?Hbk; py_all; reflexivity.
Qed.

(** *** The interface class and the pass-through reader *)

(** C9.  [read] on an instance of the interface class [ReaderImp] itself
    raises [NotImplementedError], whatever the path and the state: both
    through method dispatch on a fresh [ReaderImp()] and as the method body
    applied to any [self]. *)
Theorem base_read_not_implemented :
  forall (path : str) (m : Machine),
    run (self <- ReaderImp.__init__ ;; read self path) m
      = Raise NotImplementedError
    /\ forall self : ref,
         ReaderImp.read self path m = (Raise NotImplementedError, m).
Proof.
  intros path m. split.
  - py_exec. reflexivity.
  - intros self. reflexivity.
Qed.

(** C1.  [TransparentReaderImp().read(x)] returns [x] itself, for an [x] of
    any type, and does not raise; it calls nothing (the trace is as before).
    Through method dispatch, a [str] path comes back as that [str]. *)
Theorem transparent_read_identity :
  forall (A : Type) (x : A) (m : Machine),
    let call := (self <- TransparentReaderImp.__init__ ;;
                 TransparentReaderImp.read self x) in
    run call m = Ok x
    /\ trace (exec call m) = trace m
    /\ (forall self : ref, TransparentReaderImp.read self x m = (Ok x, m))
    /\ (forall path : str,
          run (self <- TransparentReaderImp.__init__ ;; read self path) m
            = Ok (VStr path)).
Proof.
  intros A x m call. subst call. repeat split.
  intros path. py_exec. reflexivity.
Qed.

(** *** No mutation, no hidden state *)

(** C7.  [read] never changes a reader instance.  Whether it returns or
    raises, the heap of instances after the call is the heap before it; the
    same holds after any sequence of calls; so an instance still holds the
    attributes its constructor gave it however often readers were used. *)
Theorem read_never_mutates_readers :
  forall (self : ref) (path : str) (calls : list (ref * str)) (m : Machine),
    heap (exec (read self path) m) = heap m
    /\ heap (session calls m) = heap m
    /\ forall obj : Instance,
         exists r : ref,
           run (new obj) m = Ok r
           /\ heap (session calls (exec (new obj) m)) !! r = Some obj.
Proof.
  intros self path calls m. split; [apply read_frame |].
  split; [apply session_frame |].
  intros obj. destruct (new_spec obj m) as (r & Hnew & _).
  exists r. unfold run, exec. rewrite Hnew. cbn [fst snd].
  split; [reflexivity |].
  destruct (session_frame calls (store r obj m)) as (-> & _).
  apply lookup_insert_eq.
Qed.

(** C8.  The outcome of [read] is a function of the reader's configuration,
    the backing stores and the path.  Two readers with the same class and
    attributes, on machines with the same backing stores, give the same
    outcome for the same path, whatever else differs (other instances, the
    trace of earlier calls); and earlier calls to [read] do not change what a
    later one returns. *)
Theorem read_deterministic :
  forall (m1 m2 : Machine) (s1 s2 : ref) (path : str) (calls : list (ref * str)),
    heap m1 !! s1 = heap m2 !! s2 ->
    backing m1 = backing m2 ->
    run (read s1 path) m1 = run (read s2 path) m2
    /\ run (read s1 path) (session calls m1) = run (read s1 path) m1.
Proof.
  intros m1 m2 s1 s2 path calls Hobj Hbk. split.
  - now apply read_run_congr.
  - destruct (session_frame calls m1) as (Hh & Hb & _).
    apply read_run_congr; [now rewrite Hh | assumption].
Qed.

(** The same reader configuration at two references of two machines with
    different histories: both read ["hello"] from [a.txt]. *)
Lemma read_deterministic_witness :
  run (read 0%nat (u "a.txt")) sample_local
    = run (read 1%nat (u "a.txt")) sample_busy
  /\ run (read 0%nat (u "a.txt"))
       (session [(0%nat, u "dos.txt"); (0%nat, u "nothing")] sample_local)
     = run (read 0%nat (u "a.txt")) sample_local.
Proof.
  apply (read_deterministic sample_local sample_busy 0%nat 1%nat (u "a.txt")
           [(0%nat, u "dos.txt"); (0%nat, u "nothing")]).
  - vm_compute. reflexivity.
  - reflexivity.
Defined.

(** *** Errors *)

Ltac py_nodup :=
  repeat (apply NoDup_cons_2;
          [rewrite ?not_elem_of_cons; repeat split; try discriminate;
           apply not_elem_of_nil |]);
  apply NoDup_nil_2.

(** C6.  The five concrete readers pass errors through.  Every operation a
    [read] body performs on a collaborator, or on what a collaborator
    returned (a library call, a client call, the lookup of [content] or of
    ["Body"]), is in the trace with its outcome.  For the events [evs] of one
    [read]: the call raises [e] exactly when one operation raised and it
    raised that very [e]; it returns exactly when none raised; and no
    operation occurs twice, so nothing is caught, translated or retried. *)
Theorem read_propagates_errors :
  forall (self : ref) (obj : Instance) (path : str) (m : Machine),
    heap m !! self = Some obj ->
    is_variant obj = true ->
    exists evs : list Event,
      trace (exec (read self path) m) = trace m ++ evs
      /\ (forall e : Exn, run (read self path) m = Raise e <-> raised evs = [e])
      /\ ((exists v : value, run (read self path) m = Ok v) <-> raised evs = [])
      /\ NoDup (evs.*1).
Proof.
  intros self obj path m H Hv. destruct obj; try discriminate; py_all.
  all: rewrite <- ?app_assoc; simpl.
  all: eexists; split; [first [reflexivity | symmetry; apply app_nil_r] |].
  all: unfold raised; simpl.
  all: split; [intros ?; split; intros ?; congruence |].
  all: split;
    [split; [intros [? ?]; congruence
            | intros ?; first [discriminate | eauto]] |].
  all: py_nodup.
Qed.

(** A local reader on a file that is not UTF-8: the decoder's error is the
    error of [read]. *)
Lemma read_propagates_errors_witness :
  exists evs : list Event,
    trace (exec (read 0%nat (u "latin1.txt")) sample_local)
      = trace sample_local ++ evs
    /\ (forall e : Exn,
          run (read 0%nat (u "latin1.txt")) sample_local = Raise e
          <-> raised evs = [e])
    /\ ((exists v : value, run (read 0%nat (u "latin1.txt")) sample_local = Ok v)
        <-> raised evs = [])
    /\ NoDup (evs.*1).
Proof.
  apply (read_propagates_errors 0%nat (LocalReaderImp_obj (u "/srv/data"))).
  - vm_compute. reflexivity.
  - reflexivity.
Defined.

(** The interface class is the one place with a [raise] of its own: it
    raises although it called nothing. *)
Lemma base_read_raises_by_itself (self : ref) (path : str) (m : Machine) :
  heap m !! self = Some ReaderImp_obj ->
  run (read self path) m = Raise NotImplementedError
  /\ trace (exec (read self path) m) = trace m.
Proof.
  intros H. py_exec. split; reflexivity.
Qed.

(** *** The S3 reader *)

(** C4.  [S3ReaderImp(client, bucket).read(key)] issues exactly one
    [get_object] request, for that bucket and key, whatever the outcome; when
    the client answers with a response whose ["Body"] reads as [data], the
    result is [data], byte for byte; when the client raises, so does
    [read]. *)
Theorem s3_read_one_request :
  forall (client : boto3_client) (bucket key : str) (m : Machine),
    let call := (self <- S3ReaderImp.__init__ client bucket ;; read self key) in
    (exists evs : list Event,
       trace (exec call m) = trace m ++ evs
       /\ get_object_requests evs = [(client, bucket, key)])
    /\ (forall (response : gmap string S3Value) (data : bytes),
          s3 (backing m) client bucket key = Ok response ->
          response !! "Body" = Some (StreamingBody (Ok data)) ->
          run call m = Ok (VBytes data))
    /\ (forall e : Exn,
          s3 (backing m) client bucket key = Raise e ->
          run call m = Raise e).
Proof.
  intros client bucket key m call. subst call. split; [| split].
  - py_all.
    all: rewrite <- ?app_assoc; eexists; split; reflexivity.
  - intros response data Hget Hbody. py_exec. rewrite Hget. py_exec.
    rewrite Hbody. py_exec. reflexivity.
  - intros e Hget. py_exec. rewrite Hget. py_exec. reflexivity.
Qed.

(** The object under [k] of the sample bucket comes back as stored. *)
Lemma s3_read_one_request_witness :
  run (self <- S3ReaderImp.__init__ (Boto3Client 0) (u "bk") ;; read self (u "k"))
    sample
  = Ok (VBytes (b "payload")).
Proof.
  destruct (s3_read_one_request (Boto3Client 0) (u "bk") (u "k") sample)
    as (_ & Hbody & _).
  apply (Hbody {[ "Body" := StreamingBody (Ok (b "payload")) ]}).
  - reflexivity.
  - vm_compute. reflexivity.
Defined.

(** *** The get-contents reader *)

(** C5.  [GithubGetContentsReaderImp(repo).read(path)]: when [get_contents]
    returns a single content file, the result is [base64.b64decode] of its
    [content], the decoded bytes when that decodes and the decoder's error
    when it does not; when [get_contents] returns a listing (the path is a
    directory) the call fails; when [get_contents] raises (no such path) the
    call fails with that error. *)
Theorem contents_read_spec :
  forall (repo : github_Repository) (path : str) (m : Machine),
    let result :=
      run (self <- GithubGetContentsReaderImp.__init__ repo ;; read self path) m in
    (forall (cf : ContentFile) (data : bytes),
       github (backing m) repo path = Ok (OneFile cf) ->
       base64.b64decode (content cf) = Ok data ->
       result = Ok (VBytes data))
    /\ (forall (cf : ContentFile) (e : Exn),
          github (backing m) repo path = Ok (OneFile cf) ->
          base64.b64decode (content cf) = Raise e ->
          result = Raise e)
    /\ (forall entries : list ContentFile,
          github (backing m) repo path = Ok (Listing entries) ->
          exists e : Exn, result = Raise e)
    /\ (forall e : Exn,
          github (backing m) repo path = Raise e ->
          result = Raise e).
Proof.
  intros repo path m result. subst result.
  repeat split; intros; py_exec;
    repeat match goal with H : _ = _ |- _ => rewrite H; clear H; py_exec end;
    eauto.
Qed.

(** [README] of the sample repository holds ["aGVsbG8="]: [read] gives
    [b"hello"]. *)
Lemma contents_read_spec_witness :
  run (self <- GithubGetContentsReaderImp.__init__ (GithubRepository 0) ;;
       read self (u "README")) sample
  = Ok (VBytes (b "hello")).
Proof.
  destruct (contents_read_spec (GithubRepository 0) (u "README") sample)
    as (Hfile & _).
  apply (Hfile {| cf_path := u "README"; content := Some (u "aGVsbG8=") |}).
  - reflexivity.
  - vm_compute. reflexivity.
Defined.

(** *** The local reader *)

(** A NUL in the path is a NUL in the joined path. *)
Lemma join_has_NUL (root p : str) :
  has_NUL p = true -> has_NUL (posixpath.join root [p]) = true.
Proof.
  intros Hp. unfold posixpath.join, posixpath.join_step, has_NUL in *. simpl.
  repeat match goal with |- context [if ?c then _ else _] => destruct c end;
    try assumption.
  all: rewrite existsb_app; simpl; rewrite ?Hp; apply orb_true_r.
Qed.

Lemma filesystem_has_NUL (bk : Backing) (file : str) :
  has_NUL file = true -> filesystem bk file = BadName.
Proof.
  intros H. unfold filesystem. now rewrite H.
Qed.

(** C2, as amended.  [LocalReaderImp(root).read(p)] opens
    [os.path.join(root, p)].  When that is a regular file whose bytes are
    valid UTF-8, the result is the decoded text with universal-newline
    translation applied, which is the text itself when it holds no carriage
    return.  When the operating system finds no entry under that name, the
    call raises [FileNotFoundError] for that name.  Two other ways of there
    being no such file have their own errors: when a component that has to
    be a directory is a file, the call raises [NotADirectoryError]; when [p]
    holds a NUL character, whatever is on the disk, it raises
    [ValueError]. *)
Theorem local_read_spec :
  forall (root p : str) (m : Machine),
    let file := posixpath.join root [p] in
    let result := run (self <- LocalReaderImp.__init__ root ;; read self p) m in
    (forall (data : bytes) (text : str),
       filesystem (backing m) file = RegularFile data ->
       codecs.utf_8_decode data = Some text ->
       result = Ok (VStr (codecs.universal_newlines text))
       /\ (codecs.CR ∉ text -> result = Ok (VStr text)))
    /\ (filesystem (backing m) file = NoEntry ->
        result = Raise (FileNotFoundError file))
    /\ (filesystem (backing m) file = NotADirectory ->
        result = Raise (NotADirectoryError file))
    /\ (has_NUL p = true ->
        result = Raise (ValueError "embedded null byte")).
Proof.
  intros root p m file result. subst file result. split; [| repeat split].
  - intros data text Hf Hd. py_exec. rewrite Hf. py_exec. rewrite Hd. py_exec.
    split; [reflexivity |]. intros Hcr.
    now rewrite universal_newlines_no_CR.
  - intros Hf. py_exec. rewrite Hf. py_exec. reflexivity.
  - intros Hf. py_exec. rewrite Hf. py_exec. reflexivity.
  - intros Hp. py_exec.
    rewrite (filesystem_has_NUL _ _ (join_has_NUL root p Hp)). py_exec.
    reflexivity.
Qed.

(** The scenario of the specification: [a.txt] holds ["hello"] and is read as
    such; [missing.txt] is not found.  Next to it: [a.txt/x], a name under a
    file, and [a NUL b], a name with a NUL, are not reported as not found. *)
Lemma local_read_spec_witness :
  run (self <- LocalReaderImp.__init__ (u "/srv/data") ;; read self (u "a.txt"))
    sample
  = Ok (VStr (u "hello"))
  /\ run (self <- LocalReaderImp.__init__ (u "/srv/data") ;;
          read self (u "missing.txt")) sample
     = Raise (FileNotFoundError (u "/srv/data/missing.txt"))
  /\ run (self <- LocalReaderImp.__init__ (u "/srv/data") ;;
          read self (u "a.txt/x")) sample
     = Raise (NotADirectoryError (u "/srv/data/a.txt/x"))
  /\ run (self <- LocalReaderImp.__init__ (u "/srv/data") ;;
          read self [97; 0; 98]) sample
     = Raise (ValueError "embedded null byte").
Proof.
  split; [| split; [| split]].
  - destruct (local_read_spec (u "/srv/data") (u "a.txt") sample) as (Hfile & _).
    destruct (Hfile (b "hello") (u "hello")) as (_ & Hsame).
    + vm_compute. reflexivity.
    + vm_compute. reflexivity.
    + apply Hsame. unfold codecs.CR. rewrite list_elem_of_In. vm_compute.
      intuition discriminate.
  - destruct (local_read_spec (u "/srv/data") (u "missing.txt") sample)
      as (_ & Hmissing & _).
    apply Hmissing. vm_compute. reflexivity.
  - destruct (local_read_spec (u "/srv/data") (u "a.txt/x") sample)
      as (_ & _ & Hunder & _).
    apply Hunder. vm_compute. reflexivity.
  - destruct (local_read_spec (u "/srv/data") [97; 0; 98] sample)
      as (_ & _ & _ & Hnul).
    apply Hnul. reflexivity.
Defined.

(** C2, as stated, fails.  [dos.txt] exists and its bytes, [a CR LF b], are
    valid UTF-8 for the four-character text [a CR LF b]; [read] returns the
    three-character text [a LF b]. *)
Lemma local_read_not_verbatim :
  filesystem (backing sample) (posixpath.join (u "/srv/data") [u "dos.txt"])
    = RegularFile [x61; x0d; x0a; x62]
  /\ codecs.utf_8_decode [x61; x0d; x0a; x62] = Some [97; 13; 10; 98]
  /\ run (self <- LocalReaderImp.__init__ (u "/srv/data") ;;
          read self (u "dos.txt")) sample
     = Ok (VStr [97; 10; 98])
  /\ run (self <- LocalReaderImp.__init__ (u "/srv/data") ;;
          read self (u "dos.txt")) sample
     <> Ok (VStr [97; 13; 10; 98]).
Proof.
  repeat split; try (vm_compute; reflexivity).
  vm_compute. discriminate.
Qed.

(** Any text with a carriage return is returned changed. *)
Lemma local_read_translates (root p : str) (m : Machine) (data : bytes) (text : str) :
  filesystem (backing m) (posixpath.join root [p]) = RegularFile data ->
  codecs.utf_8_decode data = Some text ->
  codecs.CR ∈ text ->
  run (self <- LocalReaderImp.__init__ root ;; read self p) m <> Ok (VStr text).
Proof.
  intros Hf Hd Hcr. py_exec. rewrite Hf. py_exec. rewrite Hd. py_exec.
  intros [= Heq]. now apply (universal_newlines_changes text).
Qed.

(** What the local reader returns or raises is what the file under the joined
    path is as text. *)
Lemma local_read_text_at (root p : str) (m : Machine) :
  run (self <- LocalReaderImp.__init__ root ;; read self p) m
  = text_at (backing m) (posixpath.join root [p]).
Proof.
  unfold text_at. py_exec.
  destruct (filesystem (backing m) (posixpath.join root [p])); py_exec;
    try reflexivity.
  destruct (codecs.utf_8_decode data); py_exec; reflexivity.
Qed.

(** C10.  For an absolute [p] the root plays no part: the joined path is [p],
    every root gives the same outcome, that outcome is the text of the file
    that the filesystem has under [p] itself (or the error for [p]), and the
    one file opened is [p].  For a relative [p] the outcome is the text of
    the file under the joined path, which is the one file opened and starts
    with the root. *)
Theorem local_read_absolute :
  forall (root p : str) (m : Machine),
    let call := fun r : str => (self <- LocalReaderImp.__init__ r ;; read self p) in
    (posixpath.startswith_sep p = true ->
       posixpath.join root [p] = p
       /\ (forall root' : str, run (call root) m = run (call root') m)
       /\ run (call root) m = text_at (backing m) p
       /\ (forall (data : bytes) (text : str),
             filesystem (backing m) p = RegularFile data ->
             codecs.utf_8_decode data = Some text ->
             run (call root) m = Ok (VStr (codecs.universal_newlines text)))
       /\ exists evs : list Event,
            trace (exec (call root) m) = trace m ++ evs /\ opened evs = [p])
    /\ (posixpath.startswith_sep p = false ->
        run (call root) m = text_at (backing m) (posixpath.join root [p])
        /\ exists evs : list Event,
             trace (exec (call root) m) = trace m ++ evs
             /\ opened evs = [posixpath.join root [p]]
             /\ root `prefix_of` posixpath.join root [p]).
Proof.
  intros root p m call. subst call. split; intros Hp.
  - split; [now apply join_absolute |]. split; [| split; [| split]].
    + intros root'. rewrite !local_read_text_at, !join_absolute by assumption.
      reflexivity.
    + rewrite local_read_text_at, join_absolute by assumption. reflexivity.
    + intros data text Hf Hd.
      rewrite local_read_text_at, join_absolute by assumption.
      unfold text_at. now rewrite Hf, Hd.
    + py_exec. rewrite !join_absolute by assumption. py_all.
      all: rewrite <- ?app_assoc; eexists; split; reflexivity.
  - split; [apply local_read_text_at |]. py_all.
    all: rewrite <- ?app_assoc; eexists; split; [reflexivity |].
    all: split; [reflexivity | now apply join_relative_prefix].
Qed.

(** A reader rooted at [/srv/data] asked for [/etc/hostname] opens
    [/etc/hostname], as a reader rooted anywhere else does, and returns what
    that file holds, ["box"]. *)
Lemma local_read_absolute_witness :
  posixpath.join (u "/srv/data") [u "/etc/hostname"] = u "/etc/hostname"
  /\ (forall root' : str,
        run (self <- LocalReaderImp.__init__ (u "/srv/data") ;;
             read self (u "/etc/hostname")) sample
        = run (self <- LocalReaderImp.__init__ root' ;;
               read self (u "/etc/hostname")) sample)
  /\ run (self <- LocalReaderImp.__init__ (u "/srv/data") ;;
          read self (u "/etc/hostname")) sample
     = Ok (VStr (u "box"))
  /\ exists evs : list Event,
       trace (exec (self <- LocalReaderImp.__init__ (u "/srv/data") ;;
                    read self (u "/etc/hostname")) sample)
         = trace sample ++ evs
       /\ opened evs = [u "/etc/hostname"].
Proof.
  destruct (local_read_absolute (u "/srv/data") (u "/etc/hostname") sample)
    as (Habs & _).
  destruct Habs as (Hjoin & Hroot & _ & Htext & Hopened); [reflexivity |].
  split; [exact Hjoin |]. split; [exact Hroot |]. split; [| exact Hopened].
  apply (Htext (b "box") (u "box")); vm_compute; reflexivity.
Defined.

(** *** The cloned-repository reader *)

(** [GithubCloneRepoReaderImp(repo).read(path)] raises [TypeError] for every
    repository, path and state: [os.path.join] refuses the keyword
    [encoding]. *)
Lemma clone_read_always_raises :
  forall (repo : git_Repo) (path : str) (m : Machine),
    run (self <- GithubCloneRepoReaderImp.__init__ repo ;; read self path) m
      = Raise (TypeError "join() got an unexpected keyword argument 'encoding'").
Proof.
  intros repo path m. py_exec. reflexivity.
Qed.

(** C3.  The working tree of the sample repository is [/srv/data] and holds
    [a.txt] with the text ["hello"].  The cloned-repository reader does not
    return it: it raises [TypeError].  The local reader rooted at the same
    directory, whose body differs by the call to [open], returns it. *)
Theorem clone_read_failing_input :
  git (backing sample) (GitRepo 0) = Some (u "/srv/data")
  /\ filesystem (backing sample) (posixpath.join (u "/srv/data") [u "a.txt"])
     = RegularFile (b "hello")
  /\ run (self <- GithubCloneRepoReaderImp.__init__ (GitRepo 0) ;;
          read self (u "a.txt")) sample
     = Raise (TypeError "join() got an unexpected keyword argument 'encoding'")
  /\ run (self <- LocalReaderImp.__init__ (u "/srv/data") ;;
          read self (u "a.txt")) sample
     = Ok (VStr (u "hello")).
Proof.
  repeat split; vm_compute; reflexivity.
Qed.

(** * Further properties of the readers *)

(** *** Files are closed *)

(** X1.  [read] closes every file it opened.  For any reader and path, on
    the returning and on the raising exit, the files open after the call are
    the files open before it, and the names closed by [__exit__] during the
    call are the names [open] returned for, in the same order. *)
Theorem read_closes_what_it_opens :
  forall (self : ref) (path : str) (m : Machine),
    open_files (exec (read self path) m) = open_files m
    /\ exists evs : list Event,
         trace (exec (read self path) m) = trace m ++ evs
         /\ closed evs = opened_ok evs.
Proof.
  intros self path m. split; [apply read_frame |].
  destruct (heap m !! self) as [obj |] eqn:H; [destruct obj |]; py_all.
  all: rewrite <- ?app_assoc.
  all: eexists; split; [first [reflexivity | symmetry; apply app_nil_r] |].
  all: reflexivity.
Qed.

(** X2.  A file that is not valid UTF-8: [LocalReaderImp(root).read(p)]
    raises [UnicodeDecodeError], returns no part of the text, and has closed
    the file. *)
Theorem local_read_undecodable :
  forall (root p : str) (m : Machine) (data : bytes),
    filesystem (backing m) (posixpath.join root [p]) = RegularFile data ->
    codecs.utf_8_decode data = None ->
    let call := (self <- LocalReaderImp.__init__ root ;; read self p) in
    run call m = Raise UnicodeDecodeError
    /\ open_files (exec call m) = open_files m
    /\ exists evs : list Event,
         trace (exec call m) = trace m ++ evs
         /\ closed evs = [posixpath.join root [p]].
Proof.
  intros root p m data Hf Hd call. subst call.
  py_exec. rewrite Hf. py_exec. rewrite Hd. py_exec.
  repeat split. rewrite <- ?app_assoc. eexists; split; reflexivity.
Qed.

(** [latin1.txt] holds the single byte E9. *)
Lemma local_read_undecodable_witness :
  let call := (self <- LocalReaderImp.__init__ (u "/srv/data") ;;
               read self (u "latin1.txt")) in
  run call sample = Raise UnicodeDecodeError
  /\ open_files (exec call sample) = open_files sample
  /\ exists evs : list Event,
       trace (exec call sample) = trace sample ++ evs
       /\ closed evs = [posixpath.join (u "/srv/data") [u "latin1.txt"]].
Proof.
  apply (local_read_undecodable (u "/srv/data") (u "latin1.txt") sample [xe9]).
  - reflexivity.
  - vm_compute. reflexivity.
Defined.



(** *** How the root and the path make the file name *)

Lemma endswith_sep_snoc (root : str) :
  posixpath.endswith_sep (root ++ [posixpath.sep]) = true.
Proof.
  unfold posixpath.endswith_sep. rewrite last_snoc. apply N.eqb_refl.
Qed.

(** X4.  A separator at the end of the root makes no difference.  For a
    non-empty root that does not end with the separator and a relative path,
    [LocalReaderImp(root + "/")] and [LocalReaderImp(root)] join to the same
    name, [root + "/" + p], and give the same outcome. *)
Theorem local_read_trailing_separator :
  forall (root p : str) (m : Machine),
    root <> [] ->
    posixpath.endswith_sep root = false ->
    posixpath.startswith_sep p = false ->
    let call := fun r : str => (self <- LocalReaderImp.__init__ r ;; read self p) in
    posixpath.join (root ++ [posixpath.sep]) [p] = posixpath.join root [p]
    /\ posixpath.join root [p] = root ++ posixpath.sep :: p
    /\ run (call (root ++ [posixpath.sep])) m = run (call root) m.
Proof.
  intros root p m Hne Hend Hrel call. subst call.
  assert (posixpath.join (root ++ [posixpath.sep]) [p] = posixpath.join root [p])
    as Hj.
  { rewrite (join_root_slash root p) by assumption.
    unfold posixpath.join. simpl. unfold posixpath.join_step.
    rewrite Hrel, endswith_sep_snoc, orb_true_r.
    now rewrite <- app_assoc. }
  split; [exact Hj |]. split; [now apply join_root_slash |].
  py_exec. rewrite Hj. py_all; reflexivity.
Qed.

(** [/srv/data/] and [/srv/data] both lead to [/srv/data/a.txt]. *)
Lemma local_read_trailing_separator_witness :
  posixpath.join (u "/srv/data" ++ [posixpath.sep]) [u "a.txt"]
    = posixpath.join (u "/srv/data") [u "a.txt"]
  /\ posixpath.join (u "/srv/data") [u "a.txt"]
     = u "/srv/data" ++ posixpath.sep :: u "a.txt"
  /\ run (self <- LocalReaderImp.__init__ (u "/srv/data" ++ [posixpath.sep]) ;;
          read self (u "a.txt")) sample
     = run (self <- LocalReaderImp.__init__ (u "/srv/data") ;;
            read self (u "a.txt")) sample.
Proof.
  apply (local_read_trailing_separator (u "/srv/data") (u "a.txt") sample).
  - discriminate.
  - reflexivity.
  - reflexivity.
Defined.

(** X5.  Empty components.  With a non-empty root that does not end with
    the separator, the empty path makes [read] open the root with a
    separator appended, that is the directory itself and no file in it; and
    a reader whose root is the empty string opens the path as it is given. *)
Theorem local_read_empty_components :
  forall (root p : str) (m : Machine),
    root <> [] ->
    posixpath.endswith_sep root = false ->
    (exists evs : list Event,
       trace (exec (self <- LocalReaderImp.__init__ root ;; read self []) m)
         = trace m ++ evs
       /\ opened evs = [root ++ [posixpath.sep]])
    /\ (exists evs : list Event,
          trace (exec (self <- LocalReaderImp.__init__ [] ;; read self p) m)
            = trace m ++ evs
          /\ opened evs = [p]).
Proof.
  intros root p m Hne Hend. split.
  - assert (posixpath.join root [[]] = root ++ [posixpath.sep]) as Hj
      by (now apply join_root_slash).
    py_exec. rewrite !Hj. py_all.
    all: rewrite <- ?app_assoc; eexists; split; reflexivity.
  - assert (posixpath.join [] [p] = p) as Hj.
    { unfold posixpath.join. simpl. unfold posixpath.join_step.
      destruct (posixpath.startswith_sep p); reflexivity. }
    py_exec. rewrite !Hj. py_all.
    all: rewrite <- ?app_assoc; eexists; split; reflexivity.
Qed.

(** [LocalReaderImp("/srv/data").read("")] opens [/srv/data/]. *)
Lemma local_read_empty_components_witness :
  (exists evs : list Event,
     trace (exec (self <- LocalReaderImp.__init__ (u "/srv/data") ;;
                  read self []) sample)
       = trace sample ++ evs
     /\ opened evs = [u "/srv/data" ++ [posixpath.sep]])
  /\ (exists evs : list Event,
        trace (exec (self <- LocalReaderImp.__init__ [] ;;
                     read self (u "/etc/hostname")) sample)
          = trace sample ++ evs
        /\ opened evs = [u "/etc/hostname"]).
Proof.
  apply (local_read_empty_components (u "/srv/data") (u "/etc/hostname") sample).
  - discriminate.
  - reflexivity.
Defined.

(** *** What the local reader returns *)

(** X6.  Text returned by [LocalReaderImp.read] holds no carriage return,
    whatever the file holds. *)
Theorem local_read_never_returns_CR :
  forall (root p : str) (m : Machine) (text : str),
    run (self <- LocalReaderImp.__init__ root ;; read self p) m = Ok (VStr text) ->
    codecs.CR ∉ text.
Proof.
  intros root p m text. py_all; intros [= <-].
  apply universal_newlines_drops_CR.
Qed.

(** What is read from [dos.txt], [a LF b], has none. *)
Lemma local_read_never_returns_CR_witness : codecs.CR ∉ [97; 10; 98].
Proof.
  apply (local_read_never_returns_CR (u "/srv/data") (u "dos.txt") sample).
  vm_compute. reflexivity.
Defined.

Lemma utf_8_decode_ascii (l : list N) :
  Forall (fun x => x < 128) l -> codecs.utf_8_decode_N l = Some l.
Proof.
  induction 1 as [| x l Hx _ IH]; [reflexivity |].
  cbn [codecs.utf_8_decode_N]. apply N.ltb_lt in Hx. rewrite Hx, IH. reflexivity.
Qed.

(** X7.  A file of ASCII bytes without carriage return is returned
    character for character: the text is the sequence of the byte values. *)
Theorem local_read_ascii_verbatim :
  forall (root p : str) (m : Machine) (data : bytes),
    filesystem (backing m) (posixpath.join root [p]) = RegularFile data ->
    Forall (fun x : byte => Byte.to_N x < 128 /\ Byte.to_N x <> codecs.CR) data ->
    run (self <- LocalReaderImp.__init__ root ;; read self p) m
      = Ok (VStr (map Byte.to_N data)).
Proof.
  intros root p m data Hf Hascii.
  assert (codecs.utf_8_decode data = Some (map Byte.to_N data)) as Hd.
  { unfold codecs.utf_8_decode. apply utf_8_decode_ascii.
    apply Forall_fmap. eapply Forall_impl; [exact Hascii |]. now intros x [? _]. }
  assert (codecs.CR ∉ map Byte.to_N data) as Hcr.
  { intros Hin. apply list_elem_of_fmap in Hin. destruct Hin as (x & Hx & Hin).
    rewrite Forall_forall in Hascii. destruct (Hascii x Hin) as [_ Hne]. congruence. }
  py_exec. rewrite Hf. py_exec. rewrite Hd. py_exec.
  now rewrite universal_newlines_no_CR.
Qed.

(** [a.txt] holds the bytes of ["hello"]. *)
Lemma local_read_ascii_verbatim_witness :
  run (self <- LocalReaderImp.__init__ (u "/srv/data") ;; read self (u "a.txt"))
    sample
  = Ok (VStr (map Byte.to_N (b "hello"))).
Proof.
  apply (local_read_ascii_verbatim (u "/srv/data") (u "a.txt") sample (b "hello")).
  - reflexivity.
  - repeat constructor; discriminate.
Defined.

(** *** The S3 reader without a body *)

(** X8.  When the client's response has no ["Body"] entry,
    [S3ReaderImp(client, bucket).read(key)] raises [KeyError('Body')]; the
    request was made once and nothing was read. *)
Theorem s3_read_no_body :
  forall (client : boto3_client) (bucket key : str) (m : Machine)
         (response : gmap string S3Value),
    s3 (backing m) client bucket key = Ok response ->
    response !! "Body" = None ->
    let call := (self <- S3ReaderImp.__init__ client bucket ;; read self key) in
    run call m = Raise (KeyError "Body")
    /\ exists evs : list Event,
         trace (exec call m) = trace m ++ evs
         /\ evs.*1 = [call_get_object client bucket key; call_getitem "Body"].
Proof.
  intros client bucket key m response Hget Hbody call. subst call.
  py_exec. rewrite Hget. py_exec. rewrite Hbody. py_exec.
  split; [reflexivity |]. rewrite <- ?app_assoc. eexists; split; reflexivity.
Qed.

(** A client that answers with metadata only. *)
Lemma s3_read_no_body_witness :
  let call := (self <- S3ReaderImp.__init__ (Boto3Client 0) (u "bk") ;;
               read self (u "k")) in
  run call unusual = Raise (KeyError "Body")
  /\ exists evs : list Event,
       trace (exec call unusual) = trace unusual ++ evs
       /\ evs.*1 = [call_get_object (Boto3Client 0) (u "bk") (u "k");
                    call_getitem "Body"].
Proof.
  apply (s3_read_no_body (Boto3Client 0) (u "bk") (u "k") unusual
           {[ "ContentType" := Metadata (u "text/plain") ]}).
  - reflexivity.
  - vm_compute. reflexivity.
Defined.

(** *** The get-contents reader on what is not a file with content *)

(** X9.  When [get_contents] returns a listing (the path is a directory),
    [GithubGetContentsReaderImp(repo).read(path)] raises [AttributeError] for
    the attribute [content] of a list, and [base64.b64decode] is not
    called. *)
Theorem contents_read_directory :
  forall (repo : github_Repository) (path : str) (m : Machine)
         (entries : list ContentFile),
    github (backing m) repo path = Ok (Listing entries) ->
    let call := (self <- GithubGetContentsReaderImp.__init__ repo ;;
                 read self path) in
    run call m = Raise (AttributeError "'list' object has no attribute 'content'")
    /\ exists evs : list Event,
         trace (exec call m) = trace m ++ evs /\ decoded evs = [].
Proof.
  intros repo path m entries Hg call. subst call.
  py_exec. rewrite Hg. py_exec.
  split; [reflexivity |]. rewrite <- ?app_assoc. eexists; split; reflexivity.
Qed.

(** [src] of the sample repository is a directory. *)
Lemma contents_read_directory_witness :
  let call := (self <- GithubGetContentsReaderImp.__init__ (GithubRepository 0) ;;
               read self (u "src")) in
  run call sample
    = Raise (AttributeError "'list' object has no attribute 'content'")
  /\ exists evs : list Event,
       trace (exec call sample) = trace sample ++ evs /\ decoded evs = [].
Proof.
  apply (contents_read_directory (GithubRepository 0) (u "src") sample []).
  reflexivity.
Defined.

(** X10.  When the content file has no content ([content] is [None]),
    [GithubGetContentsReaderImp(repo).read(path)] raises the [TypeError] of
    [base64.b64decode]: it returns no empty result in its place. *)
Theorem contents_read_no_content :
  forall (repo : github_Repository) (path : str) (m : Machine) (cf : ContentFile),
    github (backing m) repo path = Ok (OneFile cf) ->
    content cf = None ->
    let call := (self <- GithubGetContentsReaderImp.__init__ repo ;;
                 read self path) in
    (exists msg : string, run call m = Raise (TypeError msg))
    /\ exists evs : list Event,
         trace (exec call m) = trace m ++ evs /\ decoded evs = [None].
Proof.
  intros repo path m cf Hg Hc call. subst call.
  py_exec. rewrite Hg. py_exec. rewrite Hc.
  split; [eexists; reflexivity |].
  rewrite <- ?app_assoc. eexists; split; reflexivity.
Qed.

(** [big.bin] comes without content. *)
Lemma contents_read_no_content_witness :
  let call := (self <- GithubGetContentsReaderImp.__init__ (GithubRepository 0) ;;
               read self (u "big.bin")) in
  (exists msg : string, run call unusual = Raise (TypeError msg))
  /\ exists evs : list Event,
       trace (exec call unusual) = trace unusual ++ evs /\ decoded evs = [None].
Proof.
  apply (contents_read_no_content (GithubRepository 0) (u "big.bin") unusual
           {| cf_path := u "big.bin"; content := None |}).
  - reflexivity.
  - reflexivity.
Defined.

(** *** What a reader calls *)

(** X11.  A reader calls its own collaborator only.  Every operation in the
    trace of one [read] belongs to the instance: library and filesystem calls
    for a local reader; for an S3 reader requests to the client and the
    bucket it was constructed with; for the Github readers requests to the
    repository they were constructed with; nothing at all for the
    pass-through reader and the interface class. *)
Theorem read_uses_only_its_collaborator :
  forall (self : ref) (obj : Instance) (path : str) (m : Machine),
    heap m !! self = Some obj ->
    exists evs : list Event,
      trace (exec (read self path) m) = trace m ++ evs
      /\ Forall (fun ev : Event => permitted obj ev.1 = true) evs.
Proof.
  intros self obj path m H. destruct obj; py_all.
  all: rewrite <- ?app_assoc.
  all: eexists; split; [first [reflexivity | symmetry; apply app_nil_r] |].
  all: repeat constructor; simpl;
    rewrite ?bool_decide_eq_true_2 by reflexivity; reflexivity.
Qed.

(** The S3 reader of the sample machine. *)
Lemma read_uses_only_its_collaborator_witness :
  exists evs : list Event,
    trace (exec (read 0%nat (u "k")) sample_s3_reader)
      = trace sample_s3_reader ++ evs
    /\ Forall (fun ev : Event =>
                 permitted (S3ReaderImp_obj (Boto3Client 0) (u "bk")) ev.1 = true)
         evs.
Proof.
  apply (read_uses_only_its_collaborator 0%nat
           (S3ReaderImp_obj (Boto3Client 0) (u "bk"))).
  vm_compute. reflexivity.
Defined.

(** X12.  [read] stops at the first error.  In the trace of one [read], on
    any instance, the only operation that can follow a call that raised is
    the [__exit__] that closes the file. *)
Theorem read_stops_at_first_error :
  forall (self : ref) (path : str) (m : Machine),
    exists evs : list Event,
      trace (exec (read self path) m) = trace m ++ evs
      /\ Forall (fun ev : Event => is_exit ev.1 = true) (after_first_raise evs).
Proof.
  intros self path m.
  destruct (heap m !! self) as [obj |] eqn:H; [destruct obj |]; py_all.
  all: rewrite <- ?app_assoc.
  all: eexists; split; [first [reflexivity | symmetry; apply app_nil_r] |].
  all: simpl; repeat constructor.
Qed.

(** *** The cloned-repository reader *)

(** X14.  [GithubCloneRepoReaderImp(repo).read(path)] opens no file.  For
    every repository (also a bare one, whose [working_tree_dir] is [None]),
    path and state it looks up [working_tree_dir], calls [os.path.join] with
    the keyword [encoding], and raises the [TypeError] of that call. *)
Theorem clone_read_opens_nothing :
  forall (repo : git_Repo) (path : str) (m : Machine),
    let call := (self <- GithubCloneRepoReaderImp.__init__ repo ;;
                 read self path) in
    run call m
      = Raise (TypeError "join() got an unexpected keyword argument 'encoding'")
    /\ exists evs : list Event,
         trace (exec call m) = trace m ++ evs
         /\ opened evs = []
         /\ evs.*1 = [call_working_tree_dir repo;
                      call_os_path_join [git (backing m) repo; Some path]
                        [("encoding", u "utf-8")]].
Proof.
  intros repo path m call. subst call. py_exec.
  split; [reflexivity |].
  rewrite <- ?app_assoc. eexists; split; [reflexivity |]. split; reflexivity.
Qed.

(** *** Base64 content *)

Section base64_facts.

Import base64 rfc4648.

Lemma in_below (k : nat) (n : N) :
  n < N.of_nat k -> In n (map N.of_nat (seq 0 k)).
Proof.
  intros Hn. apply in_map_iff. exists (N.to_nat n). split; [apply N2Nat.id |].
  apply in_seq. lia.
Qed.

Lemma all_below_256 (P : N -> bool) :
  forallb P below_256 = true -> forall n, n < 256 -> P n = true.
Proof.
  intros H n Hn. rewrite forallb_forall in H. apply H. now apply (in_below 256).
Qed.

Lemma all_below_64 (P : N -> bool) :
  forallb P below_64 = true -> forall n, n < 64 -> P n = true.
Proof.
  intros H n Hn. rewrite forallb_forall in H. apply H. now apply (in_below 64).
Qed.

Lemma all_pairs_below_256 (P : N -> N -> bool) :
  both_below_256 P = true -> forall a b, a < 256 -> b < 256 -> P a b = true.
Proof.
  intros H a b Ha Hb. unfold both_below_256 in H.
  exact (all_below_256 _ (all_below_256 _ H a Ha) b Hb).
Qed.

(** The decoder's table inverts the alphabet, and no character of the
    alphabet is the pad. *)
Lemma alphabet_decodes (v : N) :
  v < 64 ->
  (alphabet v =? PAD) = false /\ table_a2b_base64 (alphabet v) = Some v.
Proof.
  intros Hv.
  pose proof (all_below_64
    (fun v => negb (alphabet v =? PAD)
              && match table_a2b_base64 (alphabet v) with
                 | Some w => w =? v
                 | None => false
                 end)) as H.
  specialize (H ltac:(vm_compute; reflexivity) v Hv). cbv beta in H.
  apply andb_true_iff in H. destruct H as [H1 H2].
  apply negb_true_iff in H1. split; [exact H1 |].
  destruct (table_a2b_base64 (alphabet v)) as [w |]; [| discriminate].
  apply N.eqb_eq in H2. now subst.
Qed.

Lemma octet_to_N (x : byte) : octet (Byte.to_N x) = x.
Proof.
  unfold octet. pose proof (Byte.to_N_bounded x) as Hb.
  rewrite N.mod_small by lia. now rewrite Byte.of_to_N.
Qed.

Lemma to_N_below (x : byte) : Byte.to_N x < 256.
Proof. pose proof (Byte.to_N_bounded x). lia. Qed.

(** The groups are 6-bit values. *)
Lemma groups_fit (a b : N) :
  a < 256 -> b < 256 ->
  group1 a < 64 /\ group2 a b < 64 /\ group3 a b < 64 /\ group4 a < 64.
Proof.
  intros Ha Hb.
  pose proof (all_pairs_below_256
    (fun a b => (group1 a <? 64) && (group2 a b <? 64)
                && (group3 a b <? 64) && (group4 a <? 64))
    ltac:(vm_compute; reflexivity) a b Ha Hb) as H.
  cbv beta in H. rewrite !andb_true_iff, !N.ltb_lt in H. tauto.
Qed.

(** The decoder's shifts and masks put the octets back together. *)
Lemma groups_rejoin (a b : N) :
  a < 256 -> b < 256 ->
  N.lor (N.shiftl (group1 a) 2) (N.shiftr (group2 a b) 4) = a
  /\ N.land (group2 a b) 0x0f = N.shiftr b 4
  /\ N.lor (N.shiftl (N.shiftr a 4) 4) (N.shiftr (group3 a b) 2) = a
  /\ N.land (group3 a b) 0x03 = N.shiftr b 6
  /\ N.lor (N.shiftl (N.shiftr a 6) 6) (group4 a) = a.
Proof.
  intros Ha Hb.
  pose proof (all_pairs_below_256
    (fun a b =>
       (N.lor (N.shiftl (group1 a) 2) (N.shiftr (group2 a b) 4) =? a)
       && (N.land (group2 a b) 0x0f =? N.shiftr b 4)
       && (N.lor (N.shiftl (N.shiftr a 4) 4) (N.shiftr (group3 a b) 2) =? a)
       && (N.land (group3 a b) 0x03 =? N.shiftr b 6)
       && (N.lor (N.shiftl (N.shiftr a 6) 6) (group4 a) =? a))
    ltac:(vm_compute; reflexivity) a b Ha Hb) as H.
  cbv beta in H. rewrite !andb_true_iff, !N.eqb_eq in H. tauto.
Qed.

(** One character of the alphabet through the decoder's loop. *)
Lemma loop_alphabet (v : N) (rest : str) (quad_pos : nat) (leftchar : N)
    (pads : nat) (out : bytes) :
  v < 64 ->
  a2b_base64_loop (alphabet v :: rest) quad_pos leftchar pads out
  = match quad_pos with
    | 0%nat => a2b_base64_loop rest 1 v 0 out
    | 1%nat =>
      a2b_base64_loop rest 2 (N.land v 0x0f) 0
        (out ++ [octet (N.lor (N.shiftl leftchar 2) (N.shiftr v 4))])
    | 2%nat =>
      a2b_base64_loop rest 3 (N.land v 0x03) 0
        (out ++ [octet (N.lor (N.shiftl leftchar 4) (N.shiftr v 2))])
    | _ =>
      a2b_base64_loop rest 0 0 0
        (out ++ [octet (N.lor (N.shiftl leftchar 6) v)])
    end.
Proof.
  intros Hv. destruct (alphabet_decodes v Hv) as [Hpad Htab].
  cbn [a2b_base64_loop]. rewrite Hpad, Htab. reflexivity.
Qed.

(** Induction on a list three elements at a time. *)
Lemma list_ind3 {A} (P : list A -> Prop) :
  P [] -> (forall x, P [x]) -> (forall x y, P [x; y]) ->
  (forall x y z l, P l -> P (x :: y :: z :: l)) ->
  forall l, P l.
Proof.
  intros H0 H1 H2 H3 l.
  enough (P l /\ (forall x, P (x :: l)) /\ (forall x y, P (x :: y :: l))) by tauto.
  induction l as [| z l (IH0 & IH1 & IH2)]; [auto |].
  split; [apply IH1 |]. split; [intros x; apply IH2 |].
  intros x y. now apply H3.
Qed.

(** Decoding an encoding gives the bytes back, from any state of the loop
    that is at the start of a group. *)
Lemma loop_encode (data : bytes) :
  forall (leftchar : N) (pads : nat) (out : bytes),
    a2b_base64_loop (encode data) 0 leftchar pads out = Ok (out ++ data).
Proof.
  induction data as [| x | x y | x y z data IH] using list_ind3;
    intros leftchar pads out.
  - cbn. now rewrite app_nil_r.
  - pose proof (to_N_below x) as Hx.
    destruct (groups_fit (Byte.to_N x) 0 Hx ltac:(lia)) as (G1 & G2 & _).
    destruct (groups_rejoin (Byte.to_N x) 0 Hx ltac:(lia)) as (R1 & _).
    cbn [encode]. rewrite !loop_alphabet by assumption.
    rewrite R1, octet_to_N. reflexivity.
  - pose proof (to_N_below x) as Hx. pose proof (to_N_below y) as Hy.
    destruct (groups_fit (Byte.to_N x) (Byte.to_N y) Hx Hy) as (G1 & G2 & _).
    destruct (groups_fit (Byte.to_N y) 0 Hy ltac:(lia)) as (_ & _ & G3 & _).
    destruct (groups_rejoin (Byte.to_N x) (Byte.to_N y) Hx Hy) as (R1 & R2 & _).
    destruct (groups_rejoin (Byte.to_N y) 0 Hy ltac:(lia)) as (_ & _ & R3 & _).
    cbn [encode]. rewrite !loop_alphabet by assumption.
    rewrite R1, R2, R3, !octet_to_N, <- app_assoc. reflexivity.
  - pose proof (to_N_below x) as Hx. pose proof (to_N_below y) as Hy.
    pose proof (to_N_below z) as Hz.
    destruct (groups_fit (Byte.to_N x) (Byte.to_N y) Hx Hy) as (G1 & G2 & _).
    destruct (groups_fit (Byte.to_N y) (Byte.to_N z) Hy Hz) as (_ & _ & G3 & _).
    destruct (groups_fit (Byte.to_N z) 0 Hz ltac:(lia)) as (_ & _ & _ & G4).
    destruct (groups_rejoin (Byte.to_N x) (Byte.to_N y) Hx Hy) as (R1 & R2 & _).
    destruct (groups_rejoin (Byte.to_N y) (Byte.to_N z) Hy Hz)
      as (_ & _ & R3 & R4 & _).
    destruct (groups_rejoin (Byte.to_N z) 0 Hz ltac:(lia)) as (_ & _ & _ & _ & R5).
    cbn [encode]. rewrite !loop_alphabet by assumption.
    rewrite R1, R2, R3, R4, R5, !octet_to_N, IH, <- !app_assoc. reflexivity.
Qed.

(** Characters that are not significant do not count. *)
Lemma loop_significant (s : str) :
  forall (quad_pos : nat) (leftchar : N) (pads : nat) (out : bytes),
    a2b_base64_loop (List.filter significant s) quad_pos leftchar pads out
    = a2b_base64_loop s quad_pos leftchar pads out.
Proof.
  induction s as [| c s IH]; intros quad_pos leftchar pads out; [reflexivity |].
  cbn [List.filter]. unfold significant at 1.
  destruct (c =? PAD) eqn:Hpad.
  - cbn [orb a2b_base64_loop]. rewrite Hpad.
    repeat match goal with |- context [if ?x then _ else _] => destruct x end;
      try reflexivity; apply IH.
  - destruct (table_a2b_base64 c) as [v |] eqn:Htab; cbn [orb a2b_base64_loop].
    + rewrite Hpad, Htab. destruct quad_pos as [| [| [| ?]]]; apply IH.
    + rewrite Hpad, Htab. apply IH.
Qed.

(** [b64decode] of ASCII text is the decoding of its significant
    characters. *)
Lemma b64decode_significant (s : str) :
  forallb (fun c => c <? 128) s = true ->
  b64decode (Some s) = a2b_base64 (List.filter significant s).
Proof.
  intros Hs. unfold b64decode. rewrite Hs. unfold a2b_base64.
  now rewrite loop_significant.
Qed.

End base64_facts.

(** X15.  Only the characters of the base64 alphabet and the pad count.
    Two content files whose ASCII contents agree once line breaks and other
    characters outside the alphabet are left out are read alike by
    [GithubGetContentsReaderImp.read]: the same bytes, or the same error. *)
Theorem contents_read_ignores_line_breaks :
  forall (repo repo' : github_Repository) (path path' : str) (m m' : Machine)
         (cf cf' : ContentFile) (s s' : str),
    github (backing m) repo path = Ok (OneFile cf) ->
    content cf = Some s ->
    forallb (fun c => c <? 128) s = true ->
    github (backing m') repo' path' = Ok (OneFile cf') ->
    content cf' = Some s' ->
    forallb (fun c => c <? 128) s' = true ->
    List.filter rfc4648.significant s = List.filter rfc4648.significant s' ->
    run (self <- GithubGetContentsReaderImp.__init__ repo ;; read self path) m
    = run (self <- GithubGetContentsReaderImp.__init__ repo' ;; read self path') m'.
Proof.
  intros repo repo' path path' m m' cf cf' s s' Hg Hc Hs Hg' Hc' Hs' Heq.
  py_exec. rewrite Hg, Hg'. py_exec. rewrite Hc, Hc'.
  rewrite (b64decode_significant s Hs), (b64decode_significant s' Hs'), Heq.
  destruct (base64.a2b_base64 (List.filter rfc4648.significant s')); reflexivity.
Qed.

(** The [README] sent in one line and the [README] sent in two. *)
Lemma contents_read_ignores_line_breaks_witness :
  run (self <- GithubGetContentsReaderImp.__init__ (GithubRepository 0) ;;
       read self (u "README")) sample
  = run (self <- GithubGetContentsReaderImp.__init__ (GithubRepository 0) ;;
         read self (u "README")) unusual.
Proof.
  apply (contents_read_ignores_line_breaks
           (GithubRepository 0) (GithubRepository 0) (u "README") (u "README")
           sample unusual
           {| cf_path := u "README"; content := Some (u "aGVsbG8=") |}
           {| cf_path := u "README"; content := Some wrapped_README |}
           (u "aGVsbG8=") wrapped_README).
  all: vm_compute; reflexivity.
Defined.

(** X16.  Round trip.  When the content of a file is the base64 encoding of
    a byte string, with any ASCII characters outside the alphabet (line
    breaks) put in between, [GithubGetContentsReaderImp(repo).read(path)]
    returns that byte string. *)
Theorem contents_read_round_trip :
  forall (repo : github_Repository) (path : str) (m : Machine)
         (cf : ContentFile) (s : str) (payload : bytes),
    github (backing m) repo path = Ok (OneFile cf) ->
    content cf = Some s ->
    forallb (fun c => c <? 128) s = true ->
    List.filter rfc4648.significant s = rfc4648.encode payload ->
    run (self <- GithubGetContentsReaderImp.__init__ repo ;; read self path) m
      = Ok (VBytes payload).
Proof.
  intros repo path m cf s payload Hg Hc Hascii Henc.
  py_exec. rewrite Hg. py_exec. rewrite Hc.
  rewrite (b64decode_significant s Hascii), Henc.
  unfold base64.a2b_base64. rewrite loop_encode. reflexivity.
Qed.

(** ["aGVs LF bG8= LF"] is the encoding of [b"hello"], broken into lines. *)
Lemma contents_read_round_trip_witness :
  run (self <- GithubGetContentsReaderImp.__init__ (GithubRepository 0) ;;
       read self (u "README")) unusual
  = Ok (VBytes (b "hello")).
Proof.
  apply (contents_read_round_trip (GithubRepository 0) (u "README") unusual
           {| cf_path := u "README"; content := Some wrapped_README |}
           wrapped_README (b "hello")).
  all: vm_compute; reflexivity.
Defined.
